(** * Azure resource management script: a shallow embedding of [script.py]

    The script drives five Azure SDK clients through a fixed checklist
    (resource group, network stack, virtual machine, SQL database,
    storage account).  Everything it does is an SDK call, a log line or a
    raised exception, so the embedding is a state-and-exception monad whose
    state records the SDK calls made so far and the log written so far.  The
    cloud itself is a parameter: a [Provider] decides, from the calls it has
    already seen, how the next call ends. *)

From Stdlib Require Import String Ascii List Bool Arith Lia.
Import ListNotations.
Open Scope string_scope.

(** ** Exceptions *)

Module Exn.

(** The exception classes the script names or can meet.  The three Azure
    classes come from [azure.core.exceptions]; [AzureError] stands for the
    failures of the SDK that are not HTTP responses. *)
Inductive Class : Type :=
| Exception
| ValueError
| NameError
| IndexError
| AzureError
| HttpResponseError
| ResourceExistsError
| ResourceNotFoundError.

Definition class_eqb (a b : Class) : bool :=
  match a, b with
  | Exception, Exception
  | ValueError, ValueError
  | NameError, NameError
  | IndexError, IndexError
  | AzureError, AzureError
  | HttpResponseError, HttpResponseError
  | ResourceExistsError, ResourceExistsError
  | ResourceNotFoundError, ResourceNotFoundError => true
  | _, _ => false
  end.

(** Direct base class, [None] for the root. *)
Definition base (c : Class) : option Class :=
  match c with
  | Exception => None
  | ValueError | NameError | IndexError | AzureError => Some Exception
  | HttpResponseError => Some AzureError
  | ResourceExistsError | ResourceNotFoundError => Some HttpResponseError
  end.

(** [issubclass c d], by walking up the (depth 4) hierarchy. *)
Fixpoint issubclass_fuel (fuel : nat) (c d : Class) : bool :=
  class_eqb c d ||
  match fuel with
  | 0 => false
  | S k => match base c with
           | Some b => issubclass_fuel k b d
           | None => false
           end
  end.

Definition issubclass : Class -> Class -> bool := issubclass_fuel 4.

(** A raised exception: its class and the text that [str(e)] and
    [e.message] print. *)
Record t : Type := Raised { cls : Class; message : string }.

Definition isinstance (e : t) (c : Class) : bool := issubclass (cls e) c.

End Exn.

Definition exn : Type := Exn.t.

(** ** The SDK calls and the provider *)

(** One constructor for each SDK method the script calls, with the
    positional arguments that identify the target.  The virtual machine
    call also carries the [vm_size] of its hardware profile, the one
    request parameter the script computes. *)
Inductive Call : Type :=
| resource_groups_check_existence (rg : string)
| resource_groups_create_or_update (rg location : string)
| virtual_networks_begin_create_or_update (rg vnet : string)
| subnets_begin_create_or_update (rg vnet subnet : string)
| subnets_get (rg vnet subnet : string)
| public_ip_addresses_begin_create_or_update (rg ip : string)
| public_ip_addresses_get (rg ip : string)
| network_interfaces_begin_create_or_update (rg nic : string)
| virtual_machine_sizes_list (location : string)
| virtual_machines_begin_create_or_update (rg vm vm_size : string)
| virtual_machines_get (rg vm : string)
| virtual_machines_begin_start (rg vm : string)
| virtual_machines_begin_power_off (rg vm : string)
| virtual_machines_begin_delete (rg vm : string)
| servers_begin_create_or_update (rg server : string)
| servers_get (rg server : string)
| databases_begin_create_or_update (rg server db : string)
| storage_accounts_begin_create (rg account : string).

(** How a call ended.  A [begin_...] call is always followed by
    [.result()], so [Completed] means the long-running operation finished. *)
Inductive Status : Type :=
| Completed
| Failed (e : exn).

Definition Event : Type := Call * Status.

(** The cloud.  Each field receives the events so far, newest first. *)
Record Provider : Type := {
  (** the exception the call raises, if any *)
  raises : list Event -> Call -> option exn;
  (** what [check_existence] returns when it does not raise *)
  group_exists : list Event -> string -> bool;
  (** the [name]s of the sizes [virtual_machine_sizes.list] returns *)
  size_names : list Event -> string -> list string
}.

(** ** The state of a run and its monad *)

Inductive Level : Type := INFO | WARNING | ERROR.

Record World : Type := {
  trace : list Event;            (** SDK calls made, newest first *)
  log : list (Level * string);   (** log records written, newest first *)
  drawn : nat                    (** random indices consumed so far *)
}.

Definition fresh : World := {| trace := []; log := []; drawn := 0 |}.

(** The calls of a run in the order they were made. *)
Definition calls_made (w : World) : list Call := rev (map fst (trace w)).

Inductive Result (A : Type) : Type :=
| Returns (a : A)
| Raises (e : exn).
Arguments Returns {A} a.
Arguments Raises {A} e.

Definition M (A : Type) : Type := World -> Result A * World.

Definition ret {A} (a : A) : M A := fun w => (Returns a, w).

Definition raise {A} (e : exn) : M A := fun w => (Raises e, w).

Definition bind {A B} (m : M A) (k : A -> M B) : M B :=
  fun w =>
    match m w with
    | (Returns a, w') => k a w'
    | (Raises e, w') => (Raises e, w')
    end.

(** [try: body except ...: handler]: the handler sees the exception and the
    state the body left behind. *)
Definition try_except {A} (body : M A) (handler : exn -> M A) : M A :=
  fun w =>
    match body w with
    | (Returns a, w') => (Returns a, w')
    | (Raises e, w') => handler e w'
    end.

Declare Scope py_scope.
Notation "x <- m ;; k" := (bind m (fun x => k))
  (at level 61, m at next level, right associativity) : py_scope.
Notation "m ;; k" := (bind m (fun _ => k))
  (at level 61, right associativity) : py_scope.
Open Scope py_scope.

(** [for _ in range(n): body else: orelse].  The body says whether it left
    through [break]; the [else] suite runs when the range is exhausted. *)
Inductive Flow : Type := Break | Next.

Fixpoint for_range_else (n : nat) (body : M Flow) (orelse : M unit) : M unit :=
  match n with
  | 0 => orelse
  | S k =>
      f <- body ;;
      match f with
      | Break => ret tt
      | Next => for_range_else k body orelse
      end
  end.

(** [logging.info], [logging.warning], [logging.error]. *)
Definition logging (l : Level) (msg : string) : M unit :=
  fun w => (Returns tt,
            {| trace := trace w; log := (l, msg) :: log w; drawn := drawn w |}).

Definition record_event (ev : Event) (w : World) : World :=
  {| trace := ev :: trace w; log := log w; drawn := drawn w |}.

(** [x in names] for a list of strings. *)
Definition elem (x : string) (names : list string) : bool :=
  existsb (String.eqb x) names.

(** ** Module level: imports, configuration, constants *)

(** Every name the import statements of lines 1-20 bind. *)
Definition imported_names : list string :=
  [ "os"; "logging"; "DefaultAzureCredential"; "ResourceManagementClient";
    "ComputeManagementClient"; "SqlManagementClient";
    "StorageManagementClient"; "Server"; "Database"; "VirtualMachine";
    "HardwareProfile"; "StorageProfile"; "OSDisk"; "ImageReference";
    "OSProfile"; "NetworkProfile"; "NetworkInterfaceReference";
    "DiskCreateOptionTypes"; "StorageAccountCreateParameters"; "Sku"; "Kind";
    "ResourceExistsError"; "ResourceNotFoundError"; "HttpResponseError";
    "NetworkManagementClient"; "NetworkSecurityGroup"; "SecurityRule";
    "Subnet"; "PublicIPAddress"; "NetworkInterface";
    "NetworkInterfaceIPConfiguration"; "random"; "string" ].

(** Evaluating a module-level name that no import bound. *)
Definition load_global (name : string) : M unit :=
  if existsb (String.eqb name) imported_names
  then ret tt
  else raise (Exn.Raised Exn.NameError ("name '" ++ name ++ "' is not defined")).

(** [time.sleep(secs)]: the name [time] is looked up first; the pause itself
    leaves no mark on the state. *)
Definition time_sleep (secs : nat) : M unit :=
  load_global "time" ;; ret tt.

(** Truth value of a Python string. *)
Definition truthy (s : string) : bool := negb (String.eqb s "").

(** [x or default] for [x] the result of [os.getenv]. *)
Definition getenv_or (x : option string) (default : string) : string :=
  match x with
  | Some s => if truthy s then s else default
  | None => default
  end.

(** Lines 28-31: the subscription identifier, or the [ValueError]. *)
Definition load_subscription_id (environ : string -> option string)
  : Result string :=
  let subscription_id :=
    getenv_or (environ "AZURE_SUBSCRIPTION_ID") "your_subscription_id" in
  if negb (truthy subscription_id)
  then Raises (Exn.Raised Exn.ValueError
         "Azure subscription ID is not set. Please set the AZURE_SUBSCRIPTION_ID environment variable.")
  else Returns subscription_id.

Definition RESOURCE_GROUP_NAME := "MyResourceGroup".
Definition LOCATION := "centralus".
Definition VM_NAME := "MyVM".
Definition STORAGE_ACCOUNT_NAME := "mystorageacct".
Definition SQL_SERVER_NAME := "myserver".
Definition SQL_DB_NAME := "mydatabase".
Definition VNET_NAME := "MyVNet".
Definition SUBNET_NAME := "MySubnet".
Definition IP_NAME := "MyPublicIP".
Definition NIC_NAME := "MyVMNIC".

(** ** The functions of the script *)

Section Script.

(** The cloud the clients talk to, and the raw values the random generator
    hands out (the n-th draw of a run is [random_index n]). *)
Variable azure : Provider.
Variable random_index : nat -> nat.

(** An SDK call that returns a resource descriptor the script only passes
    on: it completes or raises, and is recorded either way. *)
Definition sdk_call (c : Call) : M unit :=
  fun w =>
    match raises azure (trace w) c with
    | None => (Returns tt, record_event (c, Completed) w)
    | Some e => (Raises e, record_event (c, Failed e) w)
    end.

(** [resource_client.resource_groups.check_existence(rg)] *)
Definition check_existence (rg : string) : M bool :=
  fun w =>
    let c := resource_groups_check_existence rg in
    match raises azure (trace w) c with
    | None => (Returns (group_exists azure (trace w) rg),
               record_event (c, Completed) w)
    | Some e => (Raises e, record_event (c, Failed e) w)
    end.

(** [[size.name for size in compute_client.virtual_machine_sizes.list(location)]] *)
Definition list_size_names (location : string) : M (list string) :=
  fun w =>
    let c := virtual_machine_sizes_list location in
    match raises azure (trace w) c with
    | None => (Returns (size_names azure (trace w) location),
               record_event (c, Completed) w)
    | Some e => (Raises e, record_event (c, Failed e) w)
    end.

(** The [except] clauses of a [try], tried in order; an exception none of
    them names propagates. *)
Fixpoint except {A} (clauses : list (Exn.Class * (exn -> M A))) (e : exn)
  : M A :=
  match clauses with
  | [] => raise e
  | (c, h) :: rest => if Exn.isinstance e c then h e else except rest e
  end.

(** The handler every function of the script uses: log, then bare [raise]. *)
Definition log_and_reraise {A} (prefix : string) (e : exn) : M A :=
  logging ERROR (prefix ++ Exn.message e) ;; raise e.

(** Lines 51-68. *)
Definition create_resource_group : M unit :=
  try_except
    (logging INFO ("Checking if resource group '" ++ RESOURCE_GROUP_NAME ++ "' exists...") ;;
     rg_exists <- check_existence RESOURCE_GROUP_NAME ;;
     if rg_exists
     then logging INFO ("Resource group '" ++ RESOURCE_GROUP_NAME
                        ++ "' already exists. Using existing resource group.")
     else
       logging INFO "Creating new resource group..." ;;
       sdk_call (resource_groups_create_or_update RESOURCE_GROUP_NAME LOCATION) ;;
       logging INFO ("Resource group '" ++ RESOURCE_GROUP_NAME ++ "' created successfully."))
    (except
       [ (Exn.Exception, log_and_reraise "Error creating or using resource group: ") ]).

(** Lines 70-92. *)
Definition create_virtual_network : M unit :=
  logging INFO "Creating virtual network and subnet..." ;;
  try_except
    (sdk_call (virtual_networks_begin_create_or_update RESOURCE_GROUP_NAME VNET_NAME) ;;
     sdk_call (subnets_begin_create_or_update RESOURCE_GROUP_NAME VNET_NAME SUBNET_NAME) ;;
     logging INFO ("Virtual network '" ++ VNET_NAME ++ "' and subnet '"
                   ++ SUBNET_NAME ++ "' created successfully."))
    (except
       [ (Exn.HttpResponseError, log_and_reraise "Error creating virtual network or subnet: ");
         (Exn.Exception, log_and_reraise "Unexpected error occurred: ") ]).

(** One round of a verification loop (lines 108-114, 222-228, 263-269):
    a successful [get] logs and breaks; [ResourceNotFoundError] logs a
    warning and sleeps; anything else leaves the loop as an exception. *)
Definition verify_round (query : Call) (found retrying : string) : M Flow :=
  try_except
    (sdk_call query ;; logging INFO found ;; ret Break)
    (except
       [ (Exn.ResourceNotFoundError,
          fun _ => logging WARNING retrying ;; time_sleep 5 ;; ret Next) ]).

(** Lines 106-116. *)
Definition create_public_ip_verify : M unit :=
  for_range_else 10
    (verify_round (public_ip_addresses_get RESOURCE_GROUP_NAME IP_NAME)
       ("Public IP address '" ++ IP_NAME ++ "' has been created successfully.")
       ("Public IP address '" ++ IP_NAME ++ "' not found yet. Retrying..."))
    (raise (Exn.Raised Exn.Exception
       ("Public IP address '" ++ IP_NAME ++ "' could not be verified after creation."))).

(** Lines 94-123. *)
Definition create_public_ip : M unit :=
  logging INFO "Creating public IP address..." ;;
  try_except
    (sdk_call (public_ip_addresses_begin_create_or_update RESOURCE_GROUP_NAME IP_NAME) ;;
     logging INFO ("Public IP address '" ++ IP_NAME ++ "' creation initiated.") ;;
     create_public_ip_verify)
    (except
       [ (Exn.HttpResponseError, log_and_reraise "Error creating public IP address: ");
         (Exn.Exception, log_and_reraise "Unexpected error occurred: ") ]).

(** Lines 125-151.  [subnet_info] and [ip_info] are the descriptors the two
    [get] calls return; they go into [nic_params]. *)
Definition create_network_interface : M unit :=
  logging INFO "Creating network interface..." ;;
  try_except
    (sdk_call (subnets_get RESOURCE_GROUP_NAME VNET_NAME SUBNET_NAME) ;;
     sdk_call (public_ip_addresses_get RESOURCE_GROUP_NAME IP_NAME) ;;
     sdk_call (network_interfaces_begin_create_or_update RESOURCE_GROUP_NAME NIC_NAME) ;;
     logging INFO ("Network interface '" ++ NIC_NAME ++ "' created successfully."))
    (except
       [ (Exn.Exception, log_and_reraise "Error creating network interface: ") ]).

(** Lines 153-163.  The result is [None] where Python returns [None]. *)
Definition get_available_vm_size (location preferred_size : string)
  : M (option string) :=
  logging INFO ("Checking availability of VM size '" ++ preferred_size
                ++ "' in location '" ++ location ++ "'...") ;;
  available_size_names <- list_size_names location ;;
  if elem preferred_size available_size_names
  then
    logging INFO ("Preferred VM size '" ++ preferred_size ++ "' is available.") ;;
    ret (Some preferred_size)
  else
    logging WARNING ("Preferred VM size '" ++ preferred_size
                     ++ "' is not available. Selecting an alternative size.") ;;
    ret (match available_size_names with
         | first :: _ => Some first
         | [] => None
         end).

(** Lines 209-218: the VM request with its own two handlers. *)
Definition create_virtual_machine_request (vm_size : string) : M unit :=
  try_except
    (sdk_call (virtual_machines_begin_create_or_update RESOURCE_GROUP_NAME VM_NAME vm_size) ;;
     logging INFO ("VM '" ++ VM_NAME ++ "' deployed successfully with size '"
                   ++ vm_size ++ "'."))
    (except
       [ (Exn.ResourceExistsError, log_and_reraise "Resource exists error while creating VM: ");
         (Exn.HttpResponseError, log_and_reraise "Failed to deploy VM, retrying due to error: ") ]).

(** Lines 167-218: everything [create_virtual_machine] does before it
    verifies.  [not vm_size] holds for [None] and for the empty string. *)
Definition create_virtual_machine_deploy : M unit :=
  create_resource_group ;;
  create_virtual_network ;;
  create_public_ip ;;
  create_network_interface ;;
  logging INFO "Deploying virtual machine..." ;;
  vm_size <- get_available_vm_size LOCATION "Standard_B1s" ;;
  match vm_size with
  | Some size =>
      if truthy size
      then create_virtual_machine_request size
      else raise (Exn.Raised Exn.Exception
                    "No available VM sizes found in the specified location.")
  | None => raise (Exn.Raised Exn.Exception
                     "No available VM sizes found in the specified location.")
  end.

(** Lines 220-230. *)
Definition create_virtual_machine_verify : M unit :=
  for_range_else 10
    (verify_round (virtual_machines_get RESOURCE_GROUP_NAME VM_NAME)
       ("VM '" ++ VM_NAME ++ "' has been created successfully.")
       ("VM '" ++ VM_NAME ++ "' not found yet. Retrying..."))
    (raise (Exn.Raised Exn.Exception
       ("VM '" ++ VM_NAME ++ "' could not be verified after creation."))).

(** Lines 165-234. *)
Definition create_virtual_machine : M unit :=
  try_except
    (create_virtual_machine_deploy ;; create_virtual_machine_verify)
    (except [ (Exn.Exception, log_and_reraise "Error deploying VM: ") ]).

(** [string.ascii_lowercase + string.digits] *)
Definition ascii_lowercase_digits : string :=
  "abcdefghijklmnopqrstuvwxyz0123456789".

(** [random.choices(population, k=k)] joined into a string, when the
    generator stands at its [n]-th raw value: each element is the next raw
    value scaled into the index range of the population.  An empty
    population has no element to index ([None]). *)
Fixpoint choices (population : string) (k n : nat) : option string :=
  match k with
  | 0 => Some ""
  | S k' =>
      match String.get (random_index n mod String.length population) population,
            choices population k' (S n) with
      | Some c, Some rest => Some (String c rest)
      | _, _ => None
      end
  end.

(** [''.join(random.choices(population, k=k))] *)
Definition random_choices (population : string) (k : nat) : M string :=
  fun w =>
    match choices population k (drawn w) with
    | Some s => (Returns s,
                 {| trace := trace w; log := log w; drawn := k + drawn w |})
    | None => (Raises (Exn.Raised Exn.IndexError "list index out of range"), w)
    end.

(** Lines 237-239. *)
Definition generate_unique_name (base_name : string) : M string :=
  suffix <- random_choices ascii_lowercase_digits 6 ;;
  ret (base_name ++ suffix).

(** Lines 243-259: the server request. *)
Definition setup_sql_database_server : M string :=
  logging INFO "Setting up SQL database..." ;;
  unique_sql_server_name <- generate_unique_name SQL_SERVER_NAME ;;
  logging INFO ("Generated unique SQL Server name: " ++ unique_sql_server_name) ;;
  sdk_call (servers_begin_create_or_update RESOURCE_GROUP_NAME unique_sql_server_name) ;;
  logging INFO ("SQL Server '" ++ unique_sql_server_name ++ "' created successfully.") ;;
  ret unique_sql_server_name.

(** Lines 261-271. *)
Definition setup_sql_database_verify (unique_sql_server_name : string) : M unit :=
  for_range_else 10
    (verify_round (servers_get RESOURCE_GROUP_NAME unique_sql_server_name)
       ("SQL Server '" ++ unique_sql_server_name ++ "' has been verified successfully.")
       ("SQL Server '" ++ unique_sql_server_name ++ "' not found yet. Retrying..."))
    (raise (Exn.Raised Exn.Exception
       ("SQL Server '" ++ unique_sql_server_name
        ++ "' could not be verified after creation."))).

(** Lines 241-284. *)
Definition setup_sql_database : M unit :=
  try_except
    (unique_sql_server_name <- setup_sql_database_server ;;
     setup_sql_database_verify unique_sql_server_name ;;
     sdk_call (databases_begin_create_or_update
                 RESOURCE_GROUP_NAME unique_sql_server_name SQL_DB_NAME) ;;
     logging INFO ("SQL Database '" ++ SQL_DB_NAME ++ "' setup successfully."))
    (except
       [ (Exn.HttpResponseError, log_and_reraise "Failed to set up SQL database: ");
         (Exn.Exception, log_and_reraise "Unexpected error occurred: ") ]).

(** Lines 287-310. *)
Definition configure_storage_account : M unit :=
  try_except
    (logging INFO "Configuring storage account..." ;;
     unique_storage_account_name <- generate_unique_name STORAGE_ACCOUNT_NAME ;;
     logging INFO ("Generated unique storage account name: "
                   ++ unique_storage_account_name) ;;
     sdk_call (storage_accounts_begin_create
                 RESOURCE_GROUP_NAME unique_storage_account_name) ;;
     logging INFO ("Storage account '" ++ unique_storage_account_name
                   ++ "' configured successfully."))
    (except
       [ (Exn.ResourceExistsError, log_and_reraise "Storage account name already taken: ");
         (Exn.Exception, log_and_reraise "Error configuring storage account: ") ]).

(** Lines 313-322. *)
Definition start_vm : M unit :=
  try_except
    (logging INFO ("Starting VM '" ++ VM_NAME ++ "'...") ;;
     sdk_call (virtual_machines_begin_start RESOURCE_GROUP_NAME VM_NAME) ;;
     logging INFO ("VM '" ++ VM_NAME ++ "' started successfully."))
    (except
       [ (Exn.ResourceNotFoundError,
          fun e => logging ERROR ("VM not found: " ++ Exn.message e));
         (Exn.Exception, log_and_reraise "Error starting VM: ") ]).

(** Lines 325-334. *)
Definition stop_vm : M unit :=
  try_except
    (logging INFO ("Stopping VM '" ++ VM_NAME ++ "'...") ;;
     sdk_call (virtual_machines_begin_power_off RESOURCE_GROUP_NAME VM_NAME) ;;
     logging INFO ("VM '" ++ VM_NAME ++ "' stopped successfully."))
    (except
       [ (Exn.ResourceNotFoundError,
          fun e => logging ERROR ("VM not found: " ++ Exn.message e));
         (Exn.Exception, log_and_reraise "Error stopping VM: ") ]).

(** Lines 337-346. *)
Definition delete_vm : M unit :=
  try_except
    (logging INFO ("Deleting VM '" ++ VM_NAME ++ "'...") ;;
     sdk_call (virtual_machines_begin_delete RESOURCE_GROUP_NAME VM_NAME) ;;
     logging INFO ("VM '" ++ VM_NAME ++ "' deleted successfully."))
    (except
       [ (Exn.ResourceNotFoundError,
          fun e => logging ERROR ("VM not found: " ++ Exn.message e));
         (Exn.Exception, log_and_reraise "Error deleting VM: ") ]).

(** Lines 348-352: the [__main__] block. *)
Definition main : M unit :=
  create_resource_group ;;
  create_virtual_machine ;;
  setup_sql_database ;;
  configure_storage_account.

End Script.

(** The whole script as a process: module initialisation (lines 28-31), then
    the [__main__] block against a cloud nobody has called yet. *)
Definition run_script (environ : string -> option string)
    (azure : Provider) (random_index : nat -> nat) : Result unit * World :=
  match load_subscription_id environ with
  | Returns _ => main azure random_index fresh
  | Raises e => (Raises e, fresh)
  end.

(** ** Resources, and what each call does to them *)

(** The entities of the data model, identified the way the SDK calls
    identify them. *)
Inductive Resource : Type :=
| ResourceGroup (rg : string)
| VirtualNetwork (rg vnet : string)
| Subnet (rg vnet subnet : string)
| PublicIPAddress (rg ip : string)
| NetworkInterface (rg nic : string)
| VirtualMachine (rg vm : string)
| SqlServer (rg server : string)
| SqlDatabase (rg server db : string)
| StorageAccount (rg account : string).

Definition Resource_eq_dec (a b : Resource) : {a = b} + {a <> b}.
Proof. decide equality; apply string_dec. Defined.

Definition Call_eq_dec (a b : Call) : {a = b} + {a <> b}.
Proof. decide equality; apply string_dec. Defined.

Definition resource_eqb (a b : Resource) : bool :=
  if Resource_eq_dec a b then true else false.

Definition call_eqb (a b : Call) : bool :=
  if Call_eq_dec a b then true else false.

(** The resource a create call creates. *)
Definition created_by (c : Call) : option Resource :=
  match c with
  | resource_groups_create_or_update rg _ => Some (ResourceGroup rg)
  | virtual_networks_begin_create_or_update rg vnet => Some (VirtualNetwork rg vnet)
  | subnets_begin_create_or_update rg vnet subnet => Some (Subnet rg vnet subnet)
  | public_ip_addresses_begin_create_or_update rg ip => Some (PublicIPAddress rg ip)
  | network_interfaces_begin_create_or_update rg nic => Some (NetworkInterface rg nic)
  | virtual_machines_begin_create_or_update rg vm _ => Some (VirtualMachine rg vm)
  | servers_begin_create_or_update rg server => Some (SqlServer rg server)
  | databases_begin_create_or_update rg server db => Some (SqlDatabase rg server db)
  | storage_accounts_begin_create rg account => Some (StorageAccount rg account)
  | _ => None
  end.

(** The resource a [get] call reads back. *)
Definition read_by (c : Call) : option Resource :=
  match c with
  | subnets_get rg vnet subnet => Some (Subnet rg vnet subnet)
  | public_ip_addresses_get rg ip => Some (PublicIPAddress rg ip)
  | virtual_machines_get rg vm => Some (VirtualMachine rg vm)
  | servers_get rg server => Some (SqlServer rg server)
  | _ => None
  end.







(** Number of create calls among the events. *)
Definition create_calls (h : list Event) : nat :=
  length (filter (fun ev => match created_by (fst ev) with
                            | Some _ => true
                            | None => false
                            end) h).

(** Number of events of one given call. *)
Definition times_called (c : Call) (h : list Event) : nat :=
  length (filter (fun ev => call_eqb c (fst ev)) h).

(** [l] occurs in [m], in order, possibly with other elements between. *)
Fixpoint subsequence (l m : list Call) : bool :=
  match l, m with
  | [], _ => true
  | _ :: _, [] => false
  | x :: l', y :: m' =>
      if call_eqb x y then subsequence l' m' else subsequence l m'
  end.

(** ** Providers to run the script against *)

Definition not_found : exn :=
  Exn.Raised Exn.ResourceNotFoundError "The resource was not found.".

(** The resources that exist after the events [h]: created by a completed
    create call and not deleted since. *)
Fixpoint inventory (h : list Event) : list Resource :=
  match h with
  | [] => []
  | (c, Completed) :: earlier =>
      match c with
      | virtual_machines_begin_delete rg vm =>
          remove Resource_eq_dec (VirtualMachine rg vm) (inventory earlier)
      | _ =>
          match created_by c with
          | Some r => r :: inventory earlier
          | None => inventory earlier
          end
      end
  | (_, Failed _) :: earlier => inventory earlier
  end.

(** The resource a call needs to find. *)
Definition needs (c : Call) : option Resource :=
  match c with
  | virtual_machines_begin_start rg vm
  | virtual_machines_begin_power_off rg vm
  | virtual_machines_begin_delete rg vm => Some (VirtualMachine rg vm)
  | _ => read_by c
  end.

(** A well-behaved cloud that starts empty: a create call completes and the
    resource is visible at once; a call on a missing resource raises
    [ResourceNotFoundError]; every location offers the sizes of [catalog]. *)
Definition cloud (catalog : list string) : Provider :=
  {| raises := fun h c =>
       match needs c with
       | Some r => if existsb (resource_eqb r) (inventory h)
                   then None else Some not_found
       | None => None
       end;
     group_exists := fun h rg =>
       existsb (resource_eqb (ResourceGroup rg)) (inventory h);
     size_names := fun _ _ => catalog |}.

(** A cloud on which the one call [target] raises [e] and every other call
    completes; it has no resource group and offers one size. *)
Definition failing (target : Call) (e : exn) : Provider :=
  {| raises := fun _ c => if call_eqb c target then Some e else None;
     group_exists := fun _ _ => false;
     size_names := fun _ _ => ["Standard_B1s"] |}.

(** The stub of the polling test: [query] reports not found on its first
    [n - 1] attempts and succeeds from attempt [n] on; every other call
    completes. *)
Definition found_on_attempt (n : nat) (query : Call) : Provider :=
  {| raises := fun h c =>
       if call_eqb c query
       then if Nat.ltb (S (times_called query h)) n then Some not_found else None
       else None;
     group_exists := fun _ _ => true;
     size_names := fun _ _ => ["Standard_B1s"] |}.

(** What evaluating [time.sleep] raises. *)
Definition time_is_not_defined : exn :=
  Exn.Raised Exn.NameError "name 'time' is not defined".

(** The exception of line 176. *)
Definition no_available_vm_sizes : exn :=
  Exn.Raised Exn.Exception "No available VM sizes found in the specified location.".

(** The three lifecycle operations of lines 313-346, side by side. *)
Inductive Lifecycle : Type := Start | Stop | Delete.

Definition lifecycle_call (op : Lifecycle) : Call :=
  match op with
  | Start => virtual_machines_begin_start RESOURCE_GROUP_NAME VM_NAME
  | Stop => virtual_machines_begin_power_off RESOURCE_GROUP_NAME VM_NAME
  | Delete => virtual_machines_begin_delete RESOURCE_GROUP_NAME VM_NAME
  end.

Definition lifecycle_run (azure : Provider) (op : Lifecycle) : M unit :=
  match op with
  | Start => start_vm azure
  | Stop => stop_vm azure
  | Delete => delete_vm azure
  end.

(** What each operation logs first, and the prefix of its generic error. *)
Definition lifecycle_announcement (op : Lifecycle) : string :=
  match op with
  | Start => "Starting VM 'MyVM'..."
  | Stop => "Stopping VM 'MyVM'..."
  | Delete => "Deleting VM 'MyVM'..."
  end.

Definition lifecycle_error_prefix (op : Lifecycle) : string :=
  match op with
  | Start => "Error starting VM: "
  | Stop => "Error stopping VM: "
  | Delete => "Error deleting VM: "
  end.

(** The call sequence the end-to-end scenario of the specification lists:
    group-create, vnet-create, subnet-create, publicip-create,
    publicip-poll, nic-create, vmsize-list, vm-create, vm-poll. *)
Definition scenario_calls (vm_size : string) : list Call :=
  [ resource_groups_create_or_update RESOURCE_GROUP_NAME LOCATION;
    virtual_networks_begin_create_or_update RESOURCE_GROUP_NAME VNET_NAME;
    subnets_begin_create_or_update RESOURCE_GROUP_NAME VNET_NAME SUBNET_NAME;
    public_ip_addresses_begin_create_or_update RESOURCE_GROUP_NAME IP_NAME;
    public_ip_addresses_get RESOURCE_GROUP_NAME IP_NAME;
    network_interfaces_begin_create_or_update RESOURCE_GROUP_NAME NIC_NAME;
    virtual_machine_sizes_list LOCATION;
    virtual_machines_begin_create_or_update RESOURCE_GROUP_NAME VM_NAME vm_size;
    virtual_machines_get RESOURCE_GROUP_NAME VM_NAME ].

(** The environment without [AZURE_SUBSCRIPTION_ID]. *)
Definition empty_environ : string -> option string := fun _ => None.

(** A generator that always hands out the same raw value. *)
Definition constant_random (v : nat) : nat -> nat := fun _ => v.

(** ** Specifications over the trace *)



(** [m] makes no SDK call. *)
Definition silent {A} (m : M A) : Prop :=
  forall w, trace (snd (m w)) = trace w.

(** ** Plans *)

(** The events of a list of calls (given in the order they are made) that
    all completed, newest first. *)
Definition completed (plan : list Call) : list Event :=
  rev (map (fun c => (c, Completed)) plan).

(** A run that raised [e] part-way through [plan], leaving the events
    [seg]: the calls before some call [c] of the plan all completed, and
    either [c] was made and failed (raising [e] itself, or
    [ResourceNotFoundError] where the script goes on to raise [NameError]),
    or the size query was the last completed call and the script raised
    the no-sizes exception instead of making [c]. *)
Definition halted (plan : list Call) (e : exn) (seg : list Event) : Prop :=
  exists before c after,
    plan = (before ++ c :: after)%list
    /\ ((exists e0,
           seg = (c, Failed e0) :: completed before
           /\ (e = e0
               \/ (Exn.isinstance e0 Exn.ResourceNotFoundError = true
                   /\ e = time_is_not_defined)))
        \/ (exists older,
              before = (older ++ [virtual_machine_sizes_list LOCATION])%list
              /\ seg = completed before
              /\ e = no_available_vm_sizes)).

(** [m] carries out one of the plans [plans a] in full when it returns [a],
    and halts within one of them when it raises. *)
Definition follows {A} (m : M A) (plans : A -> list Call -> Prop) : Prop :=
  forall w,
    match m w with
    | (Returns a, w') =>
        exists plan, plans a plan /\ trace w' = (completed plan ++ trace w)%list
    | (Raises e, w') =>
        exists a plan seg,
          plans a plan /\ halted plan e seg /\ trace w' = (seg ++ trace w)%list
    end.

(** The calls of each stage of [main], in order.  [create] says whether the
    resource group is created after it has been checked. *)
Definition group_plan (create : bool) : list Call :=
  resource_groups_check_existence RESOURCE_GROUP_NAME
  :: (if create
      then [resource_groups_create_or_update RESOURCE_GROUP_NAME LOCATION]
      else []).

Definition network_plan : list Call :=
  [ virtual_networks_begin_create_or_update RESOURCE_GROUP_NAME VNET_NAME;
    subnets_begin_create_or_update RESOURCE_GROUP_NAME VNET_NAME SUBNET_NAME;
    public_ip_addresses_begin_create_or_update RESOURCE_GROUP_NAME IP_NAME;
    public_ip_addresses_get RESOURCE_GROUP_NAME IP_NAME;
    subnets_get RESOURCE_GROUP_NAME VNET_NAME SUBNET_NAME;
    public_ip_addresses_get RESOURCE_GROUP_NAME IP_NAME;
    network_interfaces_begin_create_or_update RESOURCE_GROUP_NAME NIC_NAME ].

Definition machine_plan (vm_size : string) : list Call :=
  [ virtual_machine_sizes_list LOCATION;
    virtual_machines_begin_create_or_update RESOURCE_GROUP_NAME VM_NAME vm_size;
    virtual_machines_get RESOURCE_GROUP_NAME VM_NAME ].

Definition database_plan (server : string) : list Call :=
  [ servers_begin_create_or_update RESOURCE_GROUP_NAME server;
    servers_get RESOURCE_GROUP_NAME server;
    databases_begin_create_or_update RESOURCE_GROUP_NAME server SQL_DB_NAME ].

Definition storage_plan (account : string) : list Call :=
  [ storage_accounts_begin_create RESOURCE_GROUP_NAME account ].

(** [create_virtual_machine] checks the resource group again, hence the
    second group plan. *)
Definition main_plan (create1 create2 : bool)
    (vm_size server account : string) : list Call :=
  (group_plan create1 ++ group_plan create2 ++ network_plan
   ++ machine_plan vm_size ++ database_plan server ++ storage_plan account)%list.

(** A clause of a [try] that logs the exception and raises it again. *)
Definition reraises {A} (clause : Exn.Class * (exn -> M A)) : Prop :=
  exists heading, snd clause = log_and_reraise heading.

(** * Properties *)

(** ** Exceptions and the monad *)

Lemma isinstance_Exception (e : exn) : Exn.isinstance e Exn.Exception = true.
Proof. destruct e as [c m]; destruct c; reflexivity. Qed.

Lemma resource_eqb_refl (r : Resource) : resource_eqb r r = true.
Proof. unfold resource_eqb; destruct (Resource_eq_dec r r); congruence. Qed.

Lemma call_eqb_refl (c : Call) : call_eqb c c = true.
Proof. unfold call_eqb; destruct (Call_eq_dec c c); congruence. Qed.

Lemma call_eqb_eq (a b : Call) : call_eqb a b = true -> a = b.
Proof. unfold call_eqb; destruct (Call_eq_dec a b); congruence. Qed.

(** Use an assumption about the provider's answer, whichever way the
    event list of the goal is typed. *)
Ltac provider_says H :=
  match type of H with
  | raises ?a _ _ = ?v =>
      match goal with
      | |- context [raises a ?h ?c] =>
          replace (raises a h c) with v by (symmetry; exact H)
      end
  | group_exists ?a _ _ = ?v =>
      match goal with
      | |- context [group_exists a ?h ?g] =>
          replace (group_exists a h g) with v by (symmetry; exact H)
      end
  | size_names ?a _ _ = ?v =>
      match goal with
      | |- context [size_names a ?h ?l] =>
          replace (size_names a h l) with v by (symmetry; exact H)
      end
  end.

(** ** Module initialisation *)

Lemma getenv_or_truthy (x : option string) (default : string) :
  truthy default = true -> truthy (getenv_or x default) = true.
Proof.
  intros Hd; destruct x as [s|]; simpl; auto.
  destruct (truthy s) eqn:Hs; auto.
Qed.

(** The guard of line 30 never fires, whatever the environment holds. *)
Lemma load_subscription_id_returns (environ : string -> option string) :
  exists subscription_id,
    load_subscription_id environ = Returns subscription_id
    /\ truthy subscription_id = true.
Proof.
  unfold load_subscription_id.
  pose proof (getenv_or_truthy (environ "AZURE_SUBSCRIPTION_ID")
                "your_subscription_id" eq_refl) as H.
  rewrite H; simpl; eauto.
Qed.

(** C4 (the code at the failing input): with [AZURE_SUBSCRIPTION_ID] absent,
    module initialisation raises nothing; it settles on the placeholder
    identifier and the run goes on to call the provider. *)
Theorem missing_subscription_id_is_not_fatal :
  load_subscription_id empty_environ = Returns "your_subscription_id"
  /\ fst (run_script empty_environ (cloud ["Standard_B1s"]) (constant_random 0))
     = Returns tt
  /\ length (calls_made
       (snd (run_script empty_environ (cloud ["Standard_B1s"]) (constant_random 0))))
     = 17.
Proof. vm_compute; repeat split; reflexivity. Qed.

(** ** The resource group *)

(** C5: when the resource group already exists, [create_resource_group]
    issues no create call and returns; when it is absent, it issues exactly
    one create call and returns once that call has completed. *)
Theorem create_resource_group_creates_only_if_absent
    (azure : Provider) (w : World) :
  let check := resource_groups_check_existence RESOURCE_GROUP_NAME in
  let create := resource_groups_create_or_update RESOURCE_GROUP_NAME LOCATION in
  raises azure (trace w) check = None ->
  (group_exists azure (trace w) RESOURCE_GROUP_NAME = true ->
   exists w',
     create_resource_group azure w = (Returns tt, w')
     /\ trace w' = (check, Completed) :: trace w
     /\ create_calls (trace w') = create_calls (trace w))
  /\
  (group_exists azure (trace w) RESOURCE_GROUP_NAME = false ->
   raises azure ((check, Completed) :: trace w) create = None ->
   exists w',
     create_resource_group azure w = (Returns tt, w')
     /\ trace w' = (create, Completed) :: (check, Completed) :: trace w
     /\ create_calls (trace w') = S (create_calls (trace w))).
Proof.
  intros check create; subst check create; intros Hcheck; split.
  - intros Hthere.
    unfold create_resource_group, try_except, bind, check_existence, logging.
    cbn [trace log drawn]. provider_says Hcheck. provider_says Hthere.
    eexists; split; [reflexivity|]. split; reflexivity.
  - intros Habsent Hcreate.
    unfold create_resource_group, try_except, bind, check_existence,
      sdk_call, logging.
    cbn [trace log drawn record_event].
    provider_says Hcheck. provider_says Habsent.
    cbn [trace log drawn record_event]. provider_says Hcreate.
    eexists; split; [reflexivity|]. split; reflexivity.
Qed.

Lemma create_resource_group_creates_only_if_absent_witness :
  (exists w',
     create_resource_group
       (found_on_attempt 1 (resource_groups_check_existence RESOURCE_GROUP_NAME))
       fresh = (Returns tt, w')
     /\ create_calls (trace w') = 0)
  /\
  (exists w',
     create_resource_group (cloud []) fresh = (Returns tt, w')
     /\ create_calls (trace w') = 1).
Proof.
  split.
  - destruct (proj1 (create_resource_group_creates_only_if_absent
                       (found_on_attempt 1
                          (resource_groups_check_existence RESOURCE_GROUP_NAME))
                       fresh eq_refl) eq_refl) as [w' [H [_ Hn]]].
    exists w'; split; [exact H | exact Hn].
  - destruct (proj2 (create_resource_group_creates_only_if_absent
                       (cloud []) fresh eq_refl) eq_refl eq_refl)
      as [w' [H [_ Hn]]].
    exists w'; split; [exact H | exact Hn].
Defined.

(** ** Lifecycle operations *)

(** C6: for start, stop and delete alike, a [ResourceNotFoundError] from the
    provider is logged ("VM not found: ...") and the operation returns; any
    other exception is logged under the operation's own error prefix and
    raised again. *)
Theorem lifecycle_swallows_only_not_found
    (azure : Provider) (op : Lifecycle) (w : World) (e : exn) :
  raises azure (trace w) (lifecycle_call op) = Some e ->
  let after (line : string) :=
    {| trace := (lifecycle_call op, Failed e) :: trace w;
       log := (ERROR, line) :: (INFO, lifecycle_announcement op) :: log w;
       drawn := drawn w |} in
  (Exn.isinstance e Exn.ResourceNotFoundError = true ->
   lifecycle_run azure op w
   = (Returns tt, after ("VM not found: " ++ Exn.message e)))
  /\
  (Exn.isinstance e Exn.ResourceNotFoundError = false ->
   lifecycle_run azure op w
   = (Raises e, after (lifecycle_error_prefix op ++ Exn.message e))).
Proof.
  intros Hraise after; subst after.
  split; intros Hclass; destruct op;
    unfold lifecycle_run, start_vm, stop_vm, delete_vm, try_except, bind,
      sdk_call, logging;
    cbn [trace log drawn record_event lifecycle_call] in *;
    provider_says Hraise;
    cbn [except]; rewrite Hclass; try rewrite isinstance_Exception;
    reflexivity.
Qed.

Lemma lifecycle_swallows_only_not_found_witness :
  fst (lifecycle_run (cloud []) Delete fresh) = Returns tt
  /\ fst (lifecycle_run
            (failing (lifecycle_call Start)
               (Exn.Raised Exn.HttpResponseError "Conflict")) Start fresh)
     = Raises (Exn.Raised Exn.HttpResponseError "Conflict").
Proof.
  split.
  - rewrite (proj1 (lifecycle_swallows_only_not_found
                      (cloud []) Delete fresh not_found eq_refl) eq_refl).
    reflexivity.
  - rewrite (proj2 (lifecycle_swallows_only_not_found
                      (failing (lifecycle_call Start)
                         (Exn.Raised Exn.HttpResponseError "Conflict"))
                      Start fresh _ eq_refl) eq_refl).
    reflexivity.
Defined.

(** ** Generated names *)

Lemma get_in (s : string) : forall n c,
  String.get n s = Some c -> In c (list_ascii_of_string s).
Proof.
  induction s as [|a s IH]; intros n c H; simpl in *.
  - discriminate.
  - destruct n as [|n]; [left; congruence | right; eauto].
Qed.

Lemma get_below_length (s : string) : forall n,
  n < String.length s -> exists c, String.get n s = Some c.
Proof.
  induction s as [|a s IH]; intros n H; simpl in *.
  - lia.
  - destruct n as [|n]; [eauto | apply IH; lia].
Qed.

Lemma prefix_append (base suffix : string) :
  String.prefix base (base ++ suffix) = true.
Proof.
  induction base as [|a base IH]; simpl.
  - destruct suffix; reflexivity.
  - destruct (ascii_dec a a); [exact IH | congruence].
Qed.

Section Choices.

Variable random_index : nat -> nat.

(** Over the 36 lowercase letters and digits a draw always succeeds. *)
Lemma choices_lowercase_digits (k : nat) : forall n,
  exists s,
    choices random_index ascii_lowercase_digits k n = Some s
    /\ String.length s = k
    /\ (forall c, In c (list_ascii_of_string s) ->
                  In c (list_ascii_of_string ascii_lowercase_digits)).
Proof.
  induction k as [|k IH]; intros n.
  - exists ""; simpl; repeat split; tauto.
  - destruct (IH (S n)) as [rest [Hrest [Hlen Hin]]].
    destruct (get_below_length ascii_lowercase_digits
                (random_index n mod String.length ascii_lowercase_digits))
      as [c Hc].
    { apply Nat.mod_upper_bound; discriminate. }
    exists (String c rest).
    cbn [choices]; rewrite Hc, Hrest; repeat split.
    + simpl; congruence.
    + intros c' [<-|H']; [eapply get_in; eassumption | auto].
Qed.

(** The name depends on the state only through the position of the
    generator. *)
Lemma generate_unique_name_eq (base_name : string) (w : World) :
  generate_unique_name random_index base_name w
  = match choices random_index ascii_lowercase_digits 6 (drawn w) with
    | Some s => (Returns (base_name ++ s),
                 {| trace := trace w; log := log w; drawn := 6 + drawn w |})
    | None => (Raises (Exn.Raised Exn.IndexError "list index out of range"), w)
    end.
Proof.
  unfold generate_unique_name, bind, random_choices, ret.
  destruct (choices random_index ascii_lowercase_digits 6 (drawn w));
    reflexivity.
Qed.

End Choices.


(** ** The storage account *)

(** C7: when the create call of the storage account raises
    [ResourceExistsError], [configure_storage_account] logs it under its own
    heading ("Storage account name already taken: ...") and raises it again,
    having made that one create call and no other; any other exception goes
    under the generic heading. *)
Theorem storage_name_collision_is_logged_and_raised
    (azure : Provider) (random_index : nat -> nat)
    (w w1 : World) (name : string) (e : exn) :
  generate_unique_name random_index STORAGE_ACCOUNT_NAME w = (Returns name, w1) ->
  raises azure (trace w) (storage_accounts_begin_create RESOURCE_GROUP_NAME name)
  = Some e ->
  let after (line : string) :=
    {| trace := (storage_accounts_begin_create RESOURCE_GROUP_NAME name, Failed e)
                :: trace w;
       log := (ERROR, line)
              :: (INFO, "Generated unique storage account name: " ++ name)
              :: (INFO, "Configuring storage account...") :: log w;
       drawn := 6 + drawn w |} in
  (Exn.isinstance e Exn.ResourceExistsError = true ->
   configure_storage_account azure random_index w
   = (Raises e, after ("Storage account name already taken: " ++ Exn.message e)))
  /\
  (Exn.isinstance e Exn.ResourceExistsError = false ->
   configure_storage_account azure random_index w
   = (Raises e, after ("Error configuring storage account: " ++ Exn.message e))).
Proof.
  intros Hname Hraise after; subst after.
  rewrite generate_unique_name_eq in Hname.
  destruct (choices random_index ascii_lowercase_digits 6 (drawn w))
    as [s|] eqn:Hs; [|discriminate].
  injection Hname as <- <-.
  split; intros Hclass;
    unfold configure_storage_account, try_except, bind, logging;
    rewrite generate_unique_name_eq; cbn [trace log drawn]; rewrite Hs;
    unfold sdk_call; cbn [trace log drawn record_event];
    provider_says Hraise;
    cbn [except]; rewrite Hclass; try rewrite isinstance_Exception;
    reflexivity.
Qed.

Lemma storage_name_collision_is_logged_and_raised_witness :
  fst (configure_storage_account
         (failing (storage_accounts_begin_create RESOURCE_GROUP_NAME
                     "mystorageacctaaaaaa")
            (Exn.Raised Exn.ResourceExistsError "The name is already taken."))
         (constant_random 0) fresh)
  = Raises (Exn.Raised Exn.ResourceExistsError "The name is already taken.").
Proof.
  rewrite (proj1 (storage_name_collision_is_logged_and_raised
                    (failing (storage_accounts_begin_create RESOURCE_GROUP_NAME
                                "mystorageacctaaaaaa")
                       (Exn.Raised Exn.ResourceExistsError
                          "The name is already taken."))
                    (constant_random 0) fresh _ "mystorageacctaaaaaa" _
                    eq_refl eq_refl) eq_refl).
  reflexivity.
Defined.

(** ** Verification loops *)

Section Verification.

Variable azure : Provider.

(** A loop with at least one round left, whose query is answered with
    [ResourceNotFoundError], ends right there with the [NameError] of
    [time.sleep]: one query recorded, one warning logged. *)
Lemma verification_round_not_found
    (n : nat) (query : Call) (found retrying : string) (orelse : M unit)
    (w : World) (e : exn) :
  raises azure (trace w) query = Some e ->
  Exn.isinstance e Exn.ResourceNotFoundError = true ->
  for_range_else (S n) (verify_round azure query found retrying) orelse w
  = (Raises time_is_not_defined,
     {| trace := (query, Failed e) :: trace w;
        log := (WARNING, retrying) :: log w;
        drawn := drawn w |}).
Proof.
  intros Hraise Hclass.
  cbn [for_range_else].
  unfold verify_round, try_except, bind, sdk_call.
  provider_says Hraise.
  cbn [except]; rewrite Hclass; reflexivity.
Qed.

(** A loop whose first query completes breaks out at once. *)
Lemma verification_round_found
    (n : nat) (query : Call) (found retrying : string) (orelse : M unit)
    (w : World) :
  raises azure (trace w) query = None ->
  for_range_else (S n) (verify_round azure query found retrying) orelse w
  = (Returns tt,
     {| trace := (query, Completed) :: trace w;
        log := (INFO, found) :: log w;
        drawn := drawn w |}).
Proof.
  intros Hraise.
  cbn [for_range_else].
  unfold verify_round, try_except, bind, sdk_call.
  provider_says Hraise; reflexivity.
Qed.

End Verification.

(** C10: [time] is not among the imported names, and in each of the three
    verification loops (public IP, virtual machine, SQL server) a first
    query answered with [ResourceNotFoundError] makes the enclosing function
    raise [NameError]; that query is the last call it makes. *)
Theorem first_not_found_ends_in_NameError
    (azure : Provider) (random_index : nat -> nat) (e : exn) :
  Exn.isinstance e Exn.ResourceNotFoundError = true ->
  ~ In "time" imported_names
  /\
  (forall w,
     let request :=
       public_ip_addresses_begin_create_or_update RESOURCE_GROUP_NAME IP_NAME in
     let query := public_ip_addresses_get RESOURCE_GROUP_NAME IP_NAME in
     raises azure (trace w) request = None ->
     raises azure ((request, Completed) :: trace w) query = Some e ->
     exists w',
       create_public_ip azure w = (Raises time_is_not_defined, w')
       /\ trace w' = (query, Failed e) :: (request, Completed) :: trace w)
  /\
  (forall w w1,
     let query := virtual_machines_get RESOURCE_GROUP_NAME VM_NAME in
     create_virtual_machine_deploy azure w = (Returns tt, w1) ->
     raises azure (trace w1) query = Some e ->
     exists w',
       create_virtual_machine azure w = (Raises time_is_not_defined, w')
       /\ trace w' = (query, Failed e) :: trace w1)
  /\
  (forall w w1 server,
     let query := servers_get RESOURCE_GROUP_NAME server in
     setup_sql_database_server azure random_index w = (Returns server, w1) ->
     raises azure (trace w1) query = Some e ->
     exists w',
       setup_sql_database azure random_index w = (Raises time_is_not_defined, w')
       /\ trace w' = (query, Failed e) :: trace w1).
Proof.
  intros Hclass. split; [|split; [|split]].
  - vm_compute. intuition discriminate.
  - intros w request query; subst request query; intros Hrequest Hquery.
    unfold create_public_ip, create_public_ip_verify, try_except, bind at 1 2 3,
      sdk_call, logging.
    cbn [trace log drawn record_event].
    provider_says Hrequest.
    erewrite verification_round_not_found; [|exact Hquery|exact Hclass].
    eexists; split; reflexivity.
  - intros w w1 query; subst query; intros Hdeploy Hquery.
    unfold create_virtual_machine, create_virtual_machine_verify, try_except,
      bind.
    rewrite Hdeploy.
    erewrite verification_round_not_found; [|exact Hquery|exact Hclass].
    eexists; split; reflexivity.
  - intros w w1 server query; subst query; intros Hserver Hquery.
    unfold setup_sql_database, setup_sql_database_verify, try_except,
      bind at 1 2.
    rewrite Hserver.
    erewrite verification_round_not_found; [|exact Hquery|exact Hclass].
    eexists; split; reflexivity.
Qed.

Lemma first_not_found_ends_in_NameError_witness :
  fst (create_public_ip
         (failing (public_ip_addresses_get RESOURCE_GROUP_NAME IP_NAME) not_found)
         fresh)
  = Raises time_is_not_defined
  /\ fst (create_virtual_machine
            (failing (virtual_machines_get RESOURCE_GROUP_NAME VM_NAME) not_found)
            fresh)
     = Raises time_is_not_defined
  /\ fst (setup_sql_database
            (failing (servers_get RESOURCE_GROUP_NAME "myserveraaaaaa") not_found)
            (constant_random 0) fresh)
     = Raises time_is_not_defined.
Proof.
  split; [|split].
  - destruct (first_not_found_ends_in_NameError
                (failing (public_ip_addresses_get RESOURCE_GROUP_NAME IP_NAME)
                   not_found)
                (constant_random 0) not_found eq_refl) as [_ [H _]].
    edestruct (H fresh) as [w' [Hrun _]];
      [vm_compute; reflexivity | vm_compute; reflexivity |].
    rewrite Hrun; reflexivity.
  - destruct (first_not_found_ends_in_NameError
                (failing (virtual_machines_get RESOURCE_GROUP_NAME VM_NAME)
                   not_found)
                (constant_random 0) not_found eq_refl) as [_ [_ [H _]]].
    edestruct (H fresh) as [w' [Hrun _]];
      [vm_compute; reflexivity | vm_compute; reflexivity |].
    rewrite Hrun; reflexivity.
  - destruct (first_not_found_ends_in_NameError
                (failing (servers_get RESOURCE_GROUP_NAME "myserveraaaaaa")
                   not_found)
                (constant_random 0) not_found eq_refl) as [_ [_ [_ H]]].
    edestruct (H fresh) as [w' [Hrun _]];
      [vm_compute; reflexivity | vm_compute; reflexivity |].
    rewrite Hrun; reflexivity.
Defined.

(** C2 (the code at the failing input): against a provider that reports the
    public IP missing once and found from the second query on,
    [create_public_ip] raises [NameError] after its first query; and against
    a provider that never finds it, it raises the same [NameError] after one
    query, not the could-not-be-verified exception after ten.  The virtual
    machine loop behaves the same. *)
Theorem second_poll_attempt_is_never_made :
  let query := public_ip_addresses_get RESOURCE_GROUP_NAME IP_NAME in
  let found_second := create_public_ip (found_on_attempt 2 query) fresh in
  let never_found := create_public_ip (failing query not_found) fresh in
  let vm_query := virtual_machines_get RESOURCE_GROUP_NAME VM_NAME in
  let vm_found_second := create_virtual_machine (found_on_attempt 2 vm_query) fresh in
  fst (create_public_ip (found_on_attempt 1 query) fresh) = Returns tt
  /\ fst found_second = Raises time_is_not_defined
  /\ times_called query (trace (snd found_second)) = 1
  /\ fst never_found = Raises time_is_not_defined
  /\ times_called query (trace (snd never_found)) = 1
  /\ fst vm_found_second = Raises time_is_not_defined
  /\ times_called vm_query (trace (snd vm_found_second)) = 1.
Proof. vm_compute; repeat split; reflexivity. Qed.

(** ** Choosing the VM size *)

Lemma elem_In (x : string) (names : list string) :
  elem x names = true <-> In x names.
Proof.
  unfold elem; rewrite existsb_exists; split.
  - intros [y [Hin Heq]]; apply String.eqb_eq in Heq; congruence.
  - intros Hin; exists x; split; [exact Hin | apply String.eqb_refl].
Qed.

(** C3 (as stated, refuted): with an empty list of sizes
    [get_available_vm_size] raises nothing; it returns [None]. *)
Lemma get_available_vm_size_empty_list_returns_None :
  let run := get_available_vm_size (cloud []) LOCATION "Standard_B1s" fresh in
  size_names (cloud []) (trace fresh) LOCATION = []
  /\ fst run = Returns None
  /\ ~ (exists e, fst run = Raises e).
Proof.
  vm_compute; repeat split; try reflexivity.
  intros [e H]; discriminate.
Qed.

(** C3 (amended): when the size list is returned, [get_available_vm_size]
    returns the preferred size if it is listed, otherwise the first listed
    size, and [None] when the list is empty; [create_virtual_machine], once
    its network steps are through, meets that [None] with the
    no-available-sizes exception, the size query being its last call. *)
Theorem get_available_vm_size_prefers_then_first_then_None
    (azure : Provider) :
  (forall (location preferred_size : string) (w : World),
     let names := size_names azure (trace w) location in
     raises azure (trace w) (virtual_machine_sizes_list location) = None ->
     exists choice w',
       get_available_vm_size azure location preferred_size w
       = (Returns choice, w')
       /\ trace w' = (virtual_machine_sizes_list location, Completed) :: trace w
       /\ (In preferred_size names -> choice = Some preferred_size)
       /\ (~ In preferred_size names ->
           forall first rest, names = first :: rest -> choice = Some first)
       /\ (names = [] -> choice = None))
  /\
  (forall (w w1 : World),
     (create_resource_group azure ;; create_virtual_network azure ;;
      create_public_ip azure ;; create_network_interface azure) w
     = (Returns tt, w1) ->
     raises azure (trace w1) (virtual_machine_sizes_list LOCATION) = None ->
     size_names azure (trace w1) LOCATION = [] ->
     exists w',
       create_virtual_machine azure w = (Raises no_available_vm_sizes, w')
       /\ trace w' = (virtual_machine_sizes_list LOCATION, Completed) :: trace w1).
Proof.
  split.
  - intros location preferred_size w names Hlist.
    unfold get_available_vm_size, bind, logging, list_size_names, ret.
    cbn [trace log drawn record_event].
    provider_says Hlist. fold names.
    destruct (elem preferred_size names) eqn:Helem.
    + eexists; eexists; split; [reflexivity|].
      split; [reflexivity|]. repeat split.
      * intros Hout; apply elem_In in Helem; contradiction.
      * intros ->; discriminate.
    + eexists; eexists; split; [reflexivity|].
      split; [reflexivity|]. repeat split.
      * intros Hin; apply elem_In in Hin; congruence.
      * intros _ first rest ->; reflexivity.
      * intros ->; reflexivity.
  - intros w w1 Hnetwork Hlist Hnone.
    unfold bind in Hnetwork.
    destruct (create_resource_group azure w) as [[[]|e1] wa] eqn:E1;
      [|discriminate].
    destruct (create_virtual_network azure wa) as [[[]|e2] wb] eqn:E2;
      [|discriminate].
    destruct (create_public_ip azure wb) as [[[]|e3] wc] eqn:E3;
      [|discriminate].
    unfold create_virtual_machine, create_virtual_machine_deploy,
      try_except, bind.
    rewrite E1, E2, E3, Hnetwork.
    unfold get_available_vm_size, bind, logging, list_size_names, ret.
    cbn [trace log drawn record_event].
    provider_says Hlist. provider_says Hnone.
    cbn [elem existsb except raise].
    rewrite isinstance_Exception.
    eexists; split; reflexivity.
Qed.

Lemma get_available_vm_size_prefers_then_first_then_None_witness :
  fst (get_available_vm_size (cloud ["Standard_D2a_v4"; "Standard_B1s"])
         LOCATION "Standard_B1s" fresh)
  = Returns (Some "Standard_B1s")
  /\ fst (create_virtual_machine (cloud []) fresh) = Raises no_available_vm_sizes.
Proof.
  split.
  - destruct (proj1 (get_available_vm_size_prefers_then_first_then_None
                       (cloud ["Standard_D2a_v4"; "Standard_B1s"]))
                LOCATION "Standard_B1s" fresh eq_refl)
      as [choice [w' [Hrun [_ [Hpreferred _]]]]].
    rewrite Hrun, Hpreferred; [reflexivity | simpl; auto].
  - edestruct (proj2 (get_available_vm_size_prefers_then_first_then_None
                        (cloud [])) fresh) as [w' [Hrun _]];
      [vm_compute; reflexivity | vm_compute; reflexivity
       | vm_compute; reflexivity |].
    rewrite Hrun; reflexivity.
Defined.

(** ** The whole run *)

(** Replace a closed run by its value. *)
Ltac run_closed t :=
  let v := eval vm_compute in t in
  replace t with v by (vm_compute; reflexivity).

Ltac step_closed f :=
  match goal with
  | |- context [f ?az ?w] => run_closed (f az w); cbv beta iota
  end.

Ltac tidy_world :=
  cbv beta iota;
  cbn [trace log drawn record_event raises cloud needs read_by size_names
       Nat.add].

(** [main] on [cloud] up to the choice of the VM size, *)
Ltac start_main_on_cloud :=
  unfold main, create_virtual_machine, create_virtual_machine_deploy,
    setup_sql_database, setup_sql_database_server,
    configure_storage_account, get_available_vm_size, list_size_names,
    create_virtual_machine_request, sdk_call, logging, ret,
    try_except, bind;
  step_closed create_resource_group;
  step_closed create_resource_group;
  step_closed create_virtual_network;
  step_closed create_public_ip;
  step_closed create_network_interface;
  tidy_world.

(** and from the VM request on, given the two generated suffixes. *)
Ltac finish_main_on_cloud Hs1 Hs2 :=
  tidy_world; unfold create_virtual_machine_verify;
  rewrite verification_round_found by (vm_compute; reflexivity);
  tidy_world; rewrite generate_unique_name_eq; tidy_world; rewrite Hs1;
  tidy_world; unfold setup_sql_database_verify;
  rewrite verification_round_found
    by (cbn [trace raises cloud needs read_by inventory created_by existsb];
        rewrite resource_eqb_refl; reflexivity);
  tidy_world; rewrite generate_unique_name_eq; tidy_world; rewrite Hs2;
  tidy_world; reflexivity.

Lemma subsequence_nil (m : list Call) : subsequence [] m = true.
Proof. destruct m; reflexivity. Qed.

Lemma subsequence_same (x : Call) (l m : list Call) :
  subsequence (x :: l) (x :: m) = subsequence l m.
Proof. cbn [subsequence]; rewrite call_eqb_refl; reflexivity. Qed.

Lemma subsequence_skip (x y : Call) (l m : list Call) :
  x <> y -> subsequence (x :: l) (y :: m) = subsequence (x :: l) m.
Proof.
  intros Hxy; cbn [subsequence].
  destruct (call_eqb x y) eqn:E; [apply call_eqb_eq in E; contradiction|].
  reflexivity.
Qed.

(** Decide [subsequence] on explicit lists whose calls may hold symbolic
    names. *)
Ltac decide_subsequence :=
  repeat first [ rewrite subsequence_same
               | rewrite subsequence_skip by discriminate ];
  apply subsequence_nil.

(** C8 (as stated, refuted): on a cloud that starts empty the run succeeds,
    but its seventeen calls are not the nine of the scenario, whatever VM
    size the scenario is read with. *)
Lemma end_to_end_calls_differ_from_scenario :
  let run := run_script empty_environ (cloud ["Standard_B1s"]) (constant_random 0) in
  fst run = Returns tt
  /\ length (calls_made (snd run)) = 17
  /\ ~ (exists vm_size, calls_made (snd run) = scenario_calls vm_size).
Proof.
  vm_compute; repeat split.
  intros [vm_size H]; discriminate.
Qed.

(** C8 (amended): on a cloud that starts empty and offers a usable size, the
    run returns normally after exactly seventeen calls: the group is checked
    and created, then checked again by [create_virtual_machine]; the subnet
    and the public IP are read once more before the network interface is
    created; and the SQL server, its database and the storage account
    follow the virtual machine.  The nine calls of the scenario occur among
    them in the scenario's order. *)
Theorem end_to_end_call_sequence
    (environ : string -> option string) (catalog : list string)
    (random_index : nat -> nat) :
  In "Standard_B1s" catalog \/ truthy (hd "" catalog) = true ->
  exists (server account : string) (w : World),
    let vm_size :=
      if elem "Standard_B1s" catalog then "Standard_B1s" else hd "" catalog in
    run_script environ (cloud catalog) random_index = (Returns tt, w)
    /\ calls_made w =
       [ resource_groups_check_existence RESOURCE_GROUP_NAME;
         resource_groups_create_or_update RESOURCE_GROUP_NAME LOCATION;
         resource_groups_check_existence RESOURCE_GROUP_NAME;
         virtual_networks_begin_create_or_update RESOURCE_GROUP_NAME VNET_NAME;
         subnets_begin_create_or_update RESOURCE_GROUP_NAME VNET_NAME SUBNET_NAME;
         public_ip_addresses_begin_create_or_update RESOURCE_GROUP_NAME IP_NAME;
         public_ip_addresses_get RESOURCE_GROUP_NAME IP_NAME;
         subnets_get RESOURCE_GROUP_NAME VNET_NAME SUBNET_NAME;
         public_ip_addresses_get RESOURCE_GROUP_NAME IP_NAME;
         network_interfaces_begin_create_or_update RESOURCE_GROUP_NAME NIC_NAME;
         virtual_machine_sizes_list LOCATION;
         virtual_machines_begin_create_or_update RESOURCE_GROUP_NAME VM_NAME vm_size;
         virtual_machines_get RESOURCE_GROUP_NAME VM_NAME;
         servers_begin_create_or_update RESOURCE_GROUP_NAME server;
         servers_get RESOURCE_GROUP_NAME server;
         databases_begin_create_or_update RESOURCE_GROUP_NAME server SQL_DB_NAME;
         storage_accounts_begin_create RESOURCE_GROUP_NAME account ]
    /\ subsequence (scenario_calls vm_size) (calls_made w) = true.
Proof.
  intros Husable.
  destruct (load_subscription_id_returns environ) as [sid [Hsid _]].
  destruct (choices_lowercase_digits random_index 6 0) as [s1 [Hs1 _]].
  destruct (choices_lowercase_digits random_index 6 6) as [s2 [Hs2 _]].
  exists (SQL_SERVER_NAME ++ s1), (STORAGE_ACCOUNT_NAME ++ s2).
  unfold run_script; rewrite Hsid; cbv zeta.
  destruct (elem "Standard_B1s" catalog) eqn:Helem.
  - eexists; split; [|split].
    + start_main_on_cloud. rewrite Helem. tidy_world.
      change (truthy "Standard_B1s") with true.
      finish_main_on_cloud Hs1 Hs2.
    + reflexivity.
    + unfold scenario_calls, calls_made; cbn [trace map rev app fst].
      decide_subsequence.
  - destruct Husable as [Hin | Hfirst];
      [apply elem_In in Hin; congruence|].
    destruct catalog as [|first rest]; [discriminate Hfirst|].
    cbn [hd] in *.
    eexists; split; [|split].
    + start_main_on_cloud. rewrite Helem. tidy_world. rewrite Hfirst.
      finish_main_on_cloud Hs1 Hs2.
    + reflexivity.
    + unfold scenario_calls, calls_made; cbn [trace map rev app fst].
      decide_subsequence.
Qed.

Lemma end_to_end_call_sequence_witness :
  fst (run_script empty_environ (cloud ["Standard_D2a_v4"]) (constant_random 0))
  = Returns tt.
Proof.
  destruct (end_to_end_call_sequence empty_environ ["Standard_D2a_v4"]
              (constant_random 0) (or_intror eq_refl))
    as [server [account [w [Hrun _]]]].
  rewrite Hrun; reflexivity.
Defined.

(** ** The order of dependent creations *)


Section Triples.

Context {A B : Type}.







End Triples.

(** What a new event does to the facts about the trace. *)







Section Script_triples.

Variable azure : Provider.
Variable random_index : nat -> nat.




Lemma silent_logging (l : Level) (msg : string) : silent (logging l msg).
Proof. intros w; reflexivity. Qed.






















End Script_triples.


(** * Further properties of the script *)

(** ** Module initialisation, for every environment *)

(** X1: [load_subscription_id] never raises: it returns the value of
    [AZURE_SUBSCRIPTION_ID] when that is set and not empty, and the
    placeholder otherwise (an empty value counts as unset). *)
Theorem load_subscription_id_value (environ : string -> option string) :
  load_subscription_id environ
  = Returns (match environ "AZURE_SUBSCRIPTION_ID" with
             | Some "" | None => "your_subscription_id"
             | Some s => s
             end).
Proof.
  unfold load_subscription_id, getenv_or.
  destruct (environ "AZURE_SUBSCRIPTION_ID") as [[|a s]|]; reflexivity.
Qed.

(** ** Failures of the resource group and network steps *)

(** X2: when the existence check raises, [create_resource_group] issues no
    create call; when the create call raises, nothing follows it; either
    way the exception is logged under the function's heading and raised
    again. *)
Theorem create_resource_group_reraises
    (azure : Provider) (w : World) (e : exn) :
  let check := resource_groups_check_existence RESOURCE_GROUP_NAME in
  let create := resource_groups_create_or_update RESOURCE_GROUP_NAME LOCATION in
  let heading := "Error creating or using resource group: " in
  (raises azure (trace w) check = Some e ->
   create_resource_group azure w
   = (Raises e,
      {| trace := (check, Failed e) :: trace w;
         log := (ERROR, heading ++ Exn.message e)
                :: (INFO, "Checking if resource group 'MyResourceGroup' exists...")
                :: log w;
         drawn := drawn w |}))
  /\
  (raises azure (trace w) check = None ->
   group_exists azure (trace w) RESOURCE_GROUP_NAME = false ->
   raises azure ((check, Completed) :: trace w) create = Some e ->
   create_resource_group azure w
   = (Raises e,
      {| trace := (create, Failed e) :: (check, Completed) :: trace w;
         log := (ERROR, heading ++ Exn.message e)
                :: (INFO, "Creating new resource group...")
                :: (INFO, "Checking if resource group 'MyResourceGroup' exists...")
                :: log w;
         drawn := drawn w |})).
Proof.
  intros check create heading; subst check create heading; split.
  - intros Hcheck.
    unfold create_resource_group, try_except, bind, check_existence, logging.
    cbn [trace log drawn record_event].
    provider_says Hcheck.
    cbn [except]; rewrite isinstance_Exception; reflexivity.
  - intros Hcheck Habsent Hcreate.
    unfold create_resource_group, try_except, bind, check_existence,
      sdk_call, logging.
    cbn [trace log drawn record_event].
    provider_says Hcheck. provider_says Habsent.
    cbn [trace log drawn record_event]. provider_says Hcreate.
    cbn [except]; rewrite isinstance_Exception; reflexivity.
Qed.

Lemma create_resource_group_reraises_witness :
  fst (create_resource_group
         (failing (resource_groups_check_existence RESOURCE_GROUP_NAME)
            (Exn.Raised Exn.AzureError "connection reset")) fresh)
  = Raises (Exn.Raised Exn.AzureError "connection reset")
  /\ fst (create_resource_group
            (failing (resource_groups_create_or_update RESOURCE_GROUP_NAME LOCATION)
               (Exn.Raised Exn.HttpResponseError "Forbidden")) fresh)
     = Raises (Exn.Raised Exn.HttpResponseError "Forbidden").
Proof.
  split.
  - rewrite (proj1 (create_resource_group_reraises
                      (failing (resource_groups_check_existence RESOURCE_GROUP_NAME)
                         (Exn.Raised Exn.AzureError "connection reset"))
                      fresh _) eq_refl).
    reflexivity.
  - rewrite (proj2 (create_resource_group_reraises
                      (failing (resource_groups_create_or_update
                                  RESOURCE_GROUP_NAME LOCATION)
                         (Exn.Raised Exn.HttpResponseError "Forbidden"))
                      fresh _) eq_refl eq_refl eq_refl).
    reflexivity.
Defined.

(** The heading under which the two-clause handlers of the network
    functions log an exception. *)
Lemma except_http_or_unexpected {A} (http unexpected : string) (e : exn) (w : World) :
  except (A := A)
    [ (Exn.HttpResponseError, log_and_reraise http);
      (Exn.Exception, log_and_reraise unexpected) ] e w
  = (Raises e,
     {| trace := trace w;
        log := (ERROR, (if Exn.isinstance e Exn.HttpResponseError
                        then http else unexpected) ++ Exn.message e) :: log w;
        drawn := drawn w |}).
Proof.
  cbn [except].
  destruct (Exn.isinstance e Exn.HttpResponseError); [reflexivity|].
  rewrite isinstance_Exception; reflexivity.
Qed.

(** X3: when the create call of the virtual network raises,
    [create_virtual_network] never requests the subnet; the exception is
    logged (as a provider error if it is an [HttpResponseError], as
    unexpected otherwise) and raised again.  A failing subnet request ends
    the same way, after the completed network request. *)
Theorem create_virtual_network_stops_at_first_failure
    (azure : Provider) (w : World) (e : exn) :
  let vnet := virtual_networks_begin_create_or_update RESOURCE_GROUP_NAME VNET_NAME in
  let subnet :=
    subnets_begin_create_or_update RESOURCE_GROUP_NAME VNET_NAME SUBNET_NAME in
  let line :=
    (ERROR, (if Exn.isinstance e Exn.HttpResponseError
             then "Error creating virtual network or subnet: "
             else "Unexpected error occurred: ") ++ Exn.message e) in
  (raises azure (trace w) vnet = Some e ->
   create_virtual_network azure w
   = (Raises e,
      {| trace := (vnet, Failed e) :: trace w;
         log := line :: (INFO, "Creating virtual network and subnet...") :: log w;
         drawn := drawn w |}))
  /\
  (raises azure (trace w) vnet = None ->
   raises azure ((vnet, Completed) :: trace w) subnet = Some e ->
   create_virtual_network azure w
   = (Raises e,
      {| trace := (subnet, Failed e) :: (vnet, Completed) :: trace w;
         log := line :: (INFO, "Creating virtual network and subnet...") :: log w;
         drawn := drawn w |})).
Proof.
  intros vnet subnet line; subst vnet subnet line; split.
  - intros Hvnet.
    unfold create_virtual_network, try_except, bind, sdk_call, logging.
    cbn [trace log drawn record_event].
    provider_says Hvnet.
    rewrite except_http_or_unexpected; reflexivity.
  - intros Hvnet Hsubnet.
    unfold create_virtual_network, try_except, bind, sdk_call, logging.
    cbn [trace log drawn record_event].
    provider_says Hvnet.
    cbn [trace log drawn record_event]. provider_says Hsubnet.
    rewrite except_http_or_unexpected; reflexivity.
Qed.

Lemma create_virtual_network_stops_at_first_failure_witness :
  calls_made
    (snd (create_virtual_network
            (failing (virtual_networks_begin_create_or_update
                        RESOURCE_GROUP_NAME VNET_NAME)
               (Exn.Raised Exn.HttpResponseError "Quota exceeded")) fresh))
  = [virtual_networks_begin_create_or_update RESOURCE_GROUP_NAME VNET_NAME]
  /\ fst (create_virtual_network
            (failing (subnets_begin_create_or_update
                        RESOURCE_GROUP_NAME VNET_NAME SUBNET_NAME)
               (Exn.Raised Exn.AzureError "timed out")) fresh)
     = Raises (Exn.Raised Exn.AzureError "timed out").
Proof.
  split.
  - rewrite (proj1 (create_virtual_network_stops_at_first_failure
                      (failing (virtual_networks_begin_create_or_update
                                  RESOURCE_GROUP_NAME VNET_NAME)
                         (Exn.Raised Exn.HttpResponseError "Quota exceeded"))
                      fresh _) eq_refl).
    reflexivity.
  - rewrite (proj2 (create_virtual_network_stops_at_first_failure
                      (failing (subnets_begin_create_or_update
                                  RESOURCE_GROUP_NAME VNET_NAME SUBNET_NAME)
                         (Exn.Raised Exn.AzureError "timed out"))
                      fresh _) eq_refl eq_refl).
    reflexivity.
Defined.

(** X4: [create_network_interface] reads the subnet and the public IP once
    each, without retrying: whatever exception the first failing read
    raises ([ResourceNotFoundError] included) is logged and raised again,
    and the network interface is never requested. *)
Theorem create_network_interface_needs_both_reads
    (azure : Provider) (w : World) (e : exn) :
  let subnet := subnets_get RESOURCE_GROUP_NAME VNET_NAME SUBNET_NAME in
  let ip := public_ip_addresses_get RESOURCE_GROUP_NAME IP_NAME in
  let lines :=
    [ (ERROR, "Error creating network interface: " ++ Exn.message e);
      (INFO, "Creating network interface...") ] in
  (raises azure (trace w) subnet = Some e ->
   create_network_interface azure w
   = (Raises e,
      {| trace := (subnet, Failed e) :: trace w;
         log := (lines ++ log w)%list;
         drawn := drawn w |}))
  /\
  (raises azure (trace w) subnet = None ->
   raises azure ((subnet, Completed) :: trace w) ip = Some e ->
   create_network_interface azure w
   = (Raises e,
      {| trace := (ip, Failed e) :: (subnet, Completed) :: trace w;
         log := (lines ++ log w)%list;
         drawn := drawn w |})).
Proof.
  intros subnet ip lines; subst subnet ip lines; split.
  - intros Hsubnet.
    unfold create_network_interface, try_except, bind, sdk_call, logging.
    cbn [trace log drawn record_event].
    provider_says Hsubnet.
    cbn [except]; rewrite isinstance_Exception; reflexivity.
  - intros Hsubnet Hip.
    unfold create_network_interface, try_except, bind, sdk_call, logging.
    cbn [trace log drawn record_event].
    provider_says Hsubnet.
    cbn [trace log drawn record_event]. provider_says Hip.
    cbn [except]; rewrite isinstance_Exception; reflexivity.
Qed.

Lemma create_network_interface_needs_both_reads_witness :
  calls_made (snd (create_network_interface (cloud []) fresh))
  = [subnets_get RESOURCE_GROUP_NAME VNET_NAME SUBNET_NAME]
  /\ fst (create_network_interface
            (failing (public_ip_addresses_get RESOURCE_GROUP_NAME IP_NAME)
               not_found) fresh)
     = Raises not_found.
Proof.
  split.
  - rewrite (proj1 (create_network_interface_needs_both_reads
                      (cloud []) fresh not_found) eq_refl).
    reflexivity.
  - rewrite (proj2 (create_network_interface_needs_both_reads
                      (failing (public_ip_addresses_get RESOURCE_GROUP_NAME IP_NAME)
                         not_found) fresh not_found) eq_refl eq_refl).
    reflexivity.
Defined.

(** ** Verification loops, for every answer *)

(** What a loop of at least one round does, read off the answer to its
    first query: the rounds left and the [else] suite play no part. *)
Lemma verification_loop_first_round
    (azure : Provider) (n : nat) (query : Call) (found retrying : string)
    (orelse : M unit) (w : World) :
  for_range_else (S n) (verify_round azure query found retrying) orelse w
  = match raises azure (trace w) query with
    | None =>
        (Returns tt,
         {| trace := (query, Completed) :: trace w;
            log := (INFO, found) :: log w;
            drawn := drawn w |})
    | Some e =>
        if Exn.isinstance e Exn.ResourceNotFoundError
        then (Raises time_is_not_defined,
              {| trace := (query, Failed e) :: trace w;
                 log := (WARNING, retrying) :: log w;
                 drawn := drawn w |})
        else (Raises e,
              {| trace := (query, Failed e) :: trace w;
                 log := log w;
                 drawn := drawn w |})
    end.
Proof.
  destruct (raises azure (trace w) query) as [e|] eqn:Hq.
  - destruct (Exn.isinstance e Exn.ResourceNotFoundError) eqn:Hclass.
    + apply verification_round_not_found; assumption.
    + cbn [for_range_else].
      unfold verify_round, try_except, bind, sdk_call.
      provider_says Hq. cbn [except]; rewrite Hclass; reflexivity.
  - apply verification_round_found; assumption.
Qed.

(** X5: each of the three verification loops (public IP, virtual machine,
    SQL server) makes exactly one query, whatever the provider answers: it
    returns if the query completes, raises [NameError] if the query raises
    [ResourceNotFoundError], and raises the provider's exception otherwise.
    In particular none of them ever raises its could-not-be-verified
    exception. *)
Theorem verification_loops_query_once
    (azure : Provider) (w : World) (server : string) :
  let outcome (query : Call) (m : M unit) :=
    exists s,
      trace (snd (m w)) = (query, s) :: trace w
      /\ fst (m w)
         = match s with
           | Completed => Returns tt
           | Failed e =>
               Raises (if Exn.isinstance e Exn.ResourceNotFoundError
                       then time_is_not_defined else e)
           end in
  outcome (public_ip_addresses_get RESOURCE_GROUP_NAME IP_NAME)
    (create_public_ip_verify azure)
  /\ outcome (virtual_machines_get RESOURCE_GROUP_NAME VM_NAME)
       (create_virtual_machine_verify azure)
  /\ outcome (servers_get RESOURCE_GROUP_NAME server)
       (setup_sql_database_verify azure server).
Proof.
  intros outcome; subst outcome; cbv beta.
  unfold create_public_ip_verify, create_virtual_machine_verify,
    setup_sql_database_verify.
  rewrite !verification_loop_first_round.
  repeat split;
    match goal with
    | |- context [raises azure (trace w) ?q] =>
        destruct (raises azure (trace w) q) as [e|];
        [destruct (Exn.isinstance e Exn.ResourceNotFoundError) eqn:Hclass;
         exists (Failed e); cbn [fst snd trace]; rewrite Hclass; split; reflexivity
        | exists Completed; split; reflexivity]
    end.
Qed.

(** ** The virtual machine request *)

(** X6: a failing VM request is made once and never repeated, whatever the
    log says: [ResourceExistsError] is logged under its own heading, any
    other [HttpResponseError] under "Failed to deploy VM, retrying due to
    error", anything else is not logged at this level; in each case the
    exception is raised again with the one failed call on the trace. *)
Theorem create_virtual_machine_request_never_retries
    (azure : Provider) (vm_size : string) (w : World) (e : exn) :
  let request :=
    virtual_machines_begin_create_or_update RESOURCE_GROUP_NAME VM_NAME vm_size in
  raises azure (trace w) request = Some e ->
  create_virtual_machine_request azure vm_size w
  = (Raises e,
     {| trace := (request, Failed e) :: trace w;
        log := if Exn.isinstance e Exn.ResourceExistsError
               then (ERROR, "Resource exists error while creating VM: "
                            ++ Exn.message e) :: log w
               else if Exn.isinstance e Exn.HttpResponseError
               then (ERROR, "Failed to deploy VM, retrying due to error: "
                            ++ Exn.message e) :: log w
               else log w;
        drawn := drawn w |}).
Proof.
  intros request Hrequest; subst request.
  unfold create_virtual_machine_request, try_except, bind, sdk_call.
  provider_says Hrequest.
  cbn [except].
  destruct (Exn.isinstance e Exn.ResourceExistsError); [reflexivity|].
  destruct (Exn.isinstance e Exn.HttpResponseError); reflexivity.
Qed.

Lemma create_virtual_machine_request_never_retries_witness :
  calls_made
    (snd (create_virtual_machine_request
            (failing (virtual_machines_begin_create_or_update
                        RESOURCE_GROUP_NAME VM_NAME "Standard_B1s")
               (Exn.Raised Exn.HttpResponseError "SkuNotAvailable"))
            "Standard_B1s" fresh))
  = [virtual_machines_begin_create_or_update
       RESOURCE_GROUP_NAME VM_NAME "Standard_B1s"].
Proof.
  rewrite (create_virtual_machine_request_never_retries
             (failing (virtual_machines_begin_create_or_update
                         RESOURCE_GROUP_NAME VM_NAME "Standard_B1s")
                (Exn.Raised Exn.HttpResponseError "SkuNotAvailable"))
             "Standard_B1s" fresh _ eq_refl).
  reflexivity.
Defined.

(** ** What reaches the log before an exception leaves the script *)






(** ** When two generated names coincide *)

Lemma get_nth_error (s : string) : forall n,
  String.get n s = nth_error (list_ascii_of_string s) n.
Proof.
  induction s as [|a s IH]; intros [|n]; cbn; auto.
Qed.

Lemma lowercase_digits_distinct :
  NoDup (list_ascii_of_string ascii_lowercase_digits).
Proof.
  assert (H : nodup ascii_dec (list_ascii_of_string ascii_lowercase_digits)
              = list_ascii_of_string ascii_lowercase_digits)
    by (vm_compute; reflexivity).
  rewrite <- H; apply NoDup_nodup.
Qed.

(** Two indices into the 36 characters pick the same character only if
    they are the same index. *)
Lemma get_lowercase_digits_injective (i j : nat) :
  i < 36 -> j < 36 ->
  String.get i ascii_lowercase_digits = String.get j ascii_lowercase_digits ->
  i = j.
Proof.
  intros Hi Hj; rewrite !get_nth_error.
  apply (proj1 (NoDup_nth_error _) lowercase_digits_distinct); exact Hi.
Qed.

Lemma append_injective (base s1 s2 : string) :
  base ++ s1 = base ++ s2 -> s1 = s2.
Proof.
  induction base as [|a base IH]; cbn; [auto|].
  intros [= H]; auto.
Qed.

Lemma choices_agree (random1 random2 : nat -> nat) (k : nat) :
  forall n1 n2 s1 s2,
    choices random1 ascii_lowercase_digits k n1 = Some s1 ->
    choices random2 ascii_lowercase_digits k n2 = Some s2 ->
    (s1 = s2 <->
     forall i, i < k -> random1 (n1 + i) mod 36 = random2 (n2 + i) mod 36).
Proof.
  induction k as [|k IH]; intros n1 n2 s1 s2 H1 H2.
  - cbn in H1, H2; split; [intros _ i Hi; lia | congruence].
  - cbn [choices] in H1, H2.
    change (String.length ascii_lowercase_digits) with 36 in H1, H2.
    destruct (String.get (random1 n1 mod 36) ascii_lowercase_digits)
      as [c1|] eqn:Hc1; [|discriminate].
    destruct (choices random1 ascii_lowercase_digits k (S n1))
      as [r1|] eqn:Hr1; [|discriminate].
    destruct (String.get (random2 n2 mod 36) ascii_lowercase_digits)
      as [c2|] eqn:Hc2; [|discriminate].
    destruct (choices random2 ascii_lowercase_digits k (S n2))
      as [r2|] eqn:Hr2; [|discriminate].
    injection H1 as <-; injection H2 as <-.
    specialize (IH (S n1) (S n2) r1 r2 Hr1 Hr2).
    split.
    + intros [= Hc Hr] i Hi.
      destruct i as [|i].
      * rewrite !Nat.add_0_r.
        apply get_lowercase_digits_injective;
          try (apply Nat.mod_upper_bound; discriminate).
        congruence.
      * replace (n1 + S i) with (S n1 + i) by lia.
        replace (n2 + S i) with (S n2 + i) by lia.
        apply (proj1 IH Hr); lia.
    + intros Hall.
      assert (Hhead : c1 = c2).
      { specialize (Hall 0 (Nat.lt_0_succ k)); rewrite !Nat.add_0_r in Hall.
        rewrite Hall in Hc1; congruence. }
      assert (Htail : r1 = r2).
      { apply (proj2 IH); intros i Hi.
        replace (S n1 + i) with (n1 + S i) by lia.
        replace (S n2 + i) with (n2 + S i) by lia.
        apply Hall; lia. }
      congruence.
Qed.

(** X12: two names generated from the same base name (by any two
    generators, at any two moments) are equal exactly when the six raw
    values behind them agree modulo 36, position by position. *)
Theorem generated_names_collide_iff_draws_agree
    (random1 random2 : nat -> nat) (base_name : string) (w1 w2 : World) :
  fst (generate_unique_name random1 base_name w1)
  = fst (generate_unique_name random2 base_name w2)
  <->
  forall i, i < 6 ->
    random1 (drawn w1 + i) mod 36 = random2 (drawn w2 + i) mod 36.
Proof.
  rewrite !generate_unique_name_eq.
  destruct (choices_lowercase_digits random1 6 (drawn w1)) as [s1 [H1 _]].
  destruct (choices_lowercase_digits random2 6 (drawn w2)) as [s2 [H2 _]].
  rewrite H1, H2; cbn [fst].
  rewrite <- (choices_agree random1 random2 6 _ _ s1 s2 H1 H2).
  split; [intros [= H]; exact (append_injective _ _ _ H) | congruence].
Qed.

(** ** Every run follows one plan *)

Lemma completed_app (p q : list Call) :
  completed (p ++ q) = (completed q ++ completed p)%list.
Proof. unfold completed; rewrite map_app, rev_app_distr; reflexivity. Qed.

Lemma halted_app_l (p q : list Call) (e : exn) (seg : list Event) :
  halted p e seg -> halted (p ++ q) e seg.
Proof.
  intros [before [c [after [-> H]]]].
  exists before, c, (after ++ q)%list; split; [|exact H].
  rewrite <- app_assoc; reflexivity.
Qed.

Lemma halted_app_r (p q : list Call) (e : exn) (seg : list Event) :
  halted q e seg -> halted (p ++ q) e (seg ++ completed p).
Proof.
  intros [before [c [after [-> H]]]].
  exists (p ++ before)%list, c, after; split; [apply app_assoc|].
  destruct H as [[e0 [-> He]]|[older [-> [-> ->]]]].
  - left; exists e0; split; [|exact He].
    rewrite completed_app; reflexivity.
  - right; exists (p ++ older)%list; repeat split.
    + apply app_assoc.
    + rewrite <- completed_app; reflexivity.
Qed.

Section Follows.

Context {A B : Type}.

Lemma follows_weaken (m : M A) (plans plans' : A -> list Call -> Prop) :
  follows m plans -> (forall a p, plans a p -> plans' a p) ->
  follows m plans'.
Proof.
  intros Hm Hsub w; specialize (Hm w); destruct (m w) as [[a|e] w'].
  - destruct Hm as [p [Hp Ht]]; eauto.
  - destruct Hm as [a [p [seg [Hp H]]]]; eauto 6.
Qed.

Lemma follows_bind (m : M A) (k : A -> M B)
    (first : A -> list Call -> Prop) (next : A -> B -> list Call -> Prop) :
  follows m first ->
  (forall a, follows (k a) (next a)) ->
  (forall a p, first a p -> exists b q, next a b q) ->
  follows (bind m k)
    (fun b p => exists a p1 p2,
                  first a p1 /\ next a b p2 /\ p = (p1 ++ p2)%list).
Proof.
  intros Hm Hk Hsome w; unfold bind.
  specialize (Hm w); destruct (m w) as [[a|e] w1].
  - destruct Hm as [p1 [Hp1 Ht1]].
    specialize (Hk a w1); destruct (k a w1) as [[b|e] w2].
    + destruct Hk as [p2 [Hp2 Ht2]].
      exists (p1 ++ p2)%list; split; [exists a, p1, p2; auto|].
      rewrite Ht2, Ht1, completed_app, app_assoc; reflexivity.
    + destruct Hk as [b [p2 [seg [Hp2 [Hh Ht2]]]]].
      exists b, (p1 ++ p2)%list, (seg ++ completed p1)%list.
      split; [exists a, p1, p2; auto|].
      split; [apply halted_app_r; exact Hh|].
      rewrite Ht2, Ht1, app_assoc; reflexivity.
  - destruct Hm as [a [p1 [seg [Hp1 [Hh Ht]]]]].
    destruct (Hsome a p1 Hp1) as [b [q Hq]].
    exists b, (p1 ++ q)%list, seg.
    split; [exists a, p1, q; auto|].
    split; [apply halted_app_l; exact Hh | exact Ht].
Qed.

Lemma follows_ret (a : A) : follows (ret a) (fun a' p => a' = a /\ p = []).
Proof. intros w; exists []; auto. Qed.

Lemma follows_logging_then (l : Level) (msg : string) (k : M A)
    (plans : A -> list Call -> Prop) :
  follows k plans -> follows (logging l msg ;; k) plans.
Proof.
  intros Hk w; unfold bind, logging.
  exact (Hk {| trace := trace w; log := (l, msg) :: log w; drawn := drawn w |}).
Qed.

Lemma except_reraises (clauses : list (Exn.Class * (exn -> M A)))
    (e : exn) (w : World) :
  Forall reraises clauses ->
  exists w', except clauses e w = (Raises e, w') /\ trace w' = trace w.
Proof.
  induction 1 as [|[c h] rest [heading Hh] _ IH]; cbn [except].
  - eexists; split; reflexivity.
  - cbn in Hh; rewrite Hh.
    destruct (Exn.isinstance e c); [eexists; split; reflexivity | exact IH].
Qed.

Lemma follows_try (body : M A) (clauses : list (Exn.Class * (exn -> M A)))
    (plans : A -> list Call -> Prop) :
  follows body plans -> Forall reraises clauses ->
  follows (try_except body (except clauses)) plans.
Proof.
  intros Hb Hre w; unfold try_except.
  specialize (Hb w); destruct (body w) as [[a|e] w1]; [exact Hb|].
  destruct (except_reraises clauses e w1 Hre) as [w2 [-> ->]]; exact Hb.
Qed.

End Follows.

Lemma follows_log (l : Level) (msg : string) :
  follows (logging l msg) (fun _ p => p = []).
Proof. intros w; exists []; auto. Qed.

Lemma halted_at_only_call (c : Call) (e : exn) :
  halted [c] e [(c, Failed e)].
Proof.
  exists [], c, []; split; [reflexivity|].
  left; exists e; split; [reflexivity | left; reflexivity].
Qed.

Section Follows_script.

Variable azure : Provider.
Variable random_index : nat -> nat.

Lemma follows_sdk_call (c : Call) :
  follows (sdk_call azure c) (fun _ p => p = [c]).
Proof.
  intros w; unfold sdk_call.
  destruct (raises azure (trace w) c) as [e|]; cbn [trace record_event].
  - exists tt, [c], [(c, Failed e)]; auto using halted_at_only_call.
  - exists [c]; auto.
Qed.

Lemma follows_check_existence (rg : string) :
  follows (check_existence azure rg)
    (fun _ p => p = [resource_groups_check_existence rg]).
Proof.
  intros w; unfold check_existence.
  destruct (raises azure (trace w) _) as [e|]; cbn [trace record_event].
  - exists true, [resource_groups_check_existence rg],
      [(resource_groups_check_existence rg, Failed e)];
      auto using halted_at_only_call.
  - eexists; split; reflexivity.
Qed.

Lemma follows_verification_loop
    (n : nat) (query : Call) (found retrying : string) (orelse : M unit) :
  follows (for_range_else (S n) (verify_round azure query found retrying) orelse)
    (fun _ p => p = [query]).
Proof.
  intros w; rewrite verification_loop_first_round.
  destruct (raises azure (trace w) query) as [e|].
  - destruct (Exn.isinstance e Exn.ResourceNotFoundError) eqn:Hclass;
      exists tt, [query], [(query, Failed e)]; repeat split;
      try (apply halted_at_only_call).
    exists [], query, []; split; [reflexivity|].
    left; exists e; split; [reflexivity | right; auto].
  - exists [query]; auto.
Qed.

Lemma follows_generate_unique_name (base_name : string) :
  follows (generate_unique_name random_index base_name)
    (fun name p => String.prefix base_name name = true /\ p = []).
Proof.
  intros w; rewrite generate_unique_name_eq.
  destruct (choices_lowercase_digits random_index 6 (drawn w)) as [s [-> _]].
  exists []; auto using prefix_append.
Qed.

(** Sequencing after a step whose plan is fixed. *)
Lemma follows_after {A B} (m : M A) (k : A -> M B) (p1 : list Call)
    (next : B -> list Call -> Prop) :
  follows m (fun _ p => p = p1) ->
  (forall a, follows (k a) next) ->
  (exists b q, next b q) ->
  follows (bind m k) (fun b p => exists q, next b q /\ p = (p1 ++ q)%list).
Proof.
  intros Hm Hk Hsome.
  eapply follows_weaken;
    [apply follows_bind with (first := fun _ p => p = p1) (next := fun _ => next);
     auto|].
  intros b p [a [q1 [q2 [-> [Hq ->]]]]]; eauto.
Qed.

Lemma follows_seq {A} (m : M A) (k : A -> M unit) (p1 p2 : list Call) :
  follows m (fun _ p => p = p1) ->
  (forall a, follows (k a) (fun _ p => p = p2)) ->
  follows (bind m k) (fun _ p => p = (p1 ++ p2)%list).
Proof.
  intros Hm Hk.
  eapply follows_weaken; [apply follows_after; eauto|].
  - exists tt; eauto.
  - intros b p [q [-> ->]]; reflexivity.
Qed.

Ltac reraising_clauses := repeat constructor; eexists; reflexivity.

Lemma follows_create_resource_group :
  follows (create_resource_group azure) (fun _ p => exists create, p = group_plan create).
Proof.
  unfold create_resource_group.
  apply follows_try; [|reraising_clauses].
  apply follows_logging_then.
  eapply follows_weaken.
  - apply follows_bind
      with (first := fun _ p =>
                       p = [resource_groups_check_existence RESOURCE_GROUP_NAME])
           (next := fun (found : bool) _ p =>
                      p = if found then []
                          else [resource_groups_create_or_update
                                  RESOURCE_GROUP_NAME LOCATION]).
    + apply follows_check_existence.
    + intros [|]; [apply follows_log|].
      apply follows_logging_then.
      apply (follows_seq _ _ [_] []);
        [apply follows_sdk_call | intros; apply follows_log].
    + intros found p _; exists tt; eauto.
  - intros [] p [found [p1 [p2 [-> [-> ->]]]]].
    exists (negb found); destruct found; reflexivity.
Qed.

Lemma follows_create_virtual_network :
  follows (create_virtual_network azure)
    (fun _ p =>
       p = [ virtual_networks_begin_create_or_update RESOURCE_GROUP_NAME VNET_NAME;
             subnets_begin_create_or_update RESOURCE_GROUP_NAME VNET_NAME SUBNET_NAME ]).
Proof.
  unfold create_virtual_network.
  apply follows_logging_then, follows_try; [|reraising_clauses].
  apply (follows_seq _ _ [_] [_]); [apply follows_sdk_call | intros _].
  apply (follows_seq _ _ [_] []);
    [apply follows_sdk_call | intros; apply follows_log].
Qed.

Lemma follows_create_public_ip :
  follows (create_public_ip azure)
    (fun _ p =>
       p = [ public_ip_addresses_begin_create_or_update RESOURCE_GROUP_NAME IP_NAME;
             public_ip_addresses_get RESOURCE_GROUP_NAME IP_NAME ]).
Proof.
  unfold create_public_ip.
  apply follows_logging_then, follows_try; [|reraising_clauses].
  apply (follows_seq _ _ [_] [_]); [apply follows_sdk_call | intros _].
  apply follows_logging_then, follows_verification_loop.
Qed.

Lemma follows_create_network_interface :
  follows (create_network_interface azure)
    (fun _ p =>
       p = [ subnets_get RESOURCE_GROUP_NAME VNET_NAME SUBNET_NAME;
             public_ip_addresses_get RESOURCE_GROUP_NAME IP_NAME;
             network_interfaces_begin_create_or_update RESOURCE_GROUP_NAME NIC_NAME ]).
Proof.
  unfold create_network_interface.
  apply follows_logging_then, follows_try; [|reraising_clauses].
  apply (follows_seq _ _ [_] [_; _]); [apply follows_sdk_call | intros _].
  apply (follows_seq _ _ [_] [_]); [apply follows_sdk_call | intros _].
  apply (follows_seq _ _ [_] []);
    [apply follows_sdk_call | intros; apply follows_log].
Qed.

Lemma follows_create_virtual_machine_request (vm_size : string) :
  follows (create_virtual_machine_request azure vm_size)
    (fun _ p =>
       p = [virtual_machines_begin_create_or_update
              RESOURCE_GROUP_NAME VM_NAME vm_size]).
Proof.
  unfold create_virtual_machine_request.
  apply follows_try; [|reraising_clauses].
  apply (follows_seq _ _ [_] []);
    [apply follows_sdk_call | intros; apply follows_log].
Qed.

(** Lines 174-218: the size query, then either the VM request or the
    no-sizes exception. *)
Lemma follows_size_then_request :
  follows
    (vm_size <- get_available_vm_size azure LOCATION "Standard_B1s" ;;
     match vm_size with
     | Some size =>
         if truthy size
         then create_virtual_machine_request azure size
         else raise no_available_vm_sizes
     | None => raise no_available_vm_sizes
     end)
    (fun _ p =>
       exists size,
         truthy size = true
         /\ p = [ virtual_machine_sizes_list LOCATION;
                  virtual_machines_begin_create_or_update
                    RESOURCE_GROUP_NAME VM_NAME size ]).
Proof.
  set (ask := virtual_machine_sizes_list LOCATION).
  assert (Hrequest : forall size w1 h,
             truthy size = true ->
             trace w1 = (ask, Completed) :: h ->
             match create_virtual_machine_request azure size w1 with
             | (Returns _, w') =>
                 exists plan,
                   (exists size, truthy size = true
                      /\ plan = [ask; virtual_machines_begin_create_or_update
                                         RESOURCE_GROUP_NAME VM_NAME size])
                   /\ trace w' = (completed plan ++ h)%list
             | (Raises e, w') =>
                 exists (a : unit) plan seg,
                   (exists size, truthy size = true
                      /\ plan = [ask; virtual_machines_begin_create_or_update
                                         RESOURCE_GROUP_NAME VM_NAME size])
                   /\ halted plan e seg /\ trace w' = (seg ++ h)%list
             end).
  { intros size w1 h Hsize Hw1.
    pose proof (follows_create_virtual_machine_request size w1) as H.
    destruct (create_virtual_machine_request azure size w1) as [[[]|e] w2].
    - destruct H as [plan [-> Ht]].
      eexists; split; [exists size; split; [exact Hsize | reflexivity]|].
      rewrite Ht, Hw1; reflexivity.
    - destruct H as [_ [plan [seg [-> [Hh Ht]]]]].
      exists tt; eexists; exists (seg ++ completed [ask])%list.
      split; [exists size; split; [exact Hsize | reflexivity]|].
      split; [exact (halted_app_r [ask] _ e seg Hh)|].
      rewrite Ht, Hw1, <- app_assoc; reflexivity. }
  assert (Hnone : forall w1 h,
             trace w1 = (ask, Completed) :: h ->
             exists (a : unit) plan seg,
               (exists size, truthy size = true
                  /\ plan = [ask; virtual_machines_begin_create_or_update
                                     RESOURCE_GROUP_NAME VM_NAME size])
               /\ halted plan no_available_vm_sizes seg
               /\ trace w1 = (seg ++ h)%list).
  { intros w1 h Hw1.
    exists tt; eexists; exists (completed [ask]).
    split; [exists "Standard_B1s"; split; reflexivity|].
    split; [|exact Hw1].
    exists [ask], (virtual_machines_begin_create_or_update
                      RESOURCE_GROUP_NAME VM_NAME "Standard_B1s"), [].
    split; [reflexivity|].
    right; exists []; repeat split. }
  intros w.
  unfold bind at 1.
  unfold get_available_vm_size, bind, logging, list_size_names, ret.
  cbn [trace log drawn record_event]. fold ask.
  destruct (raises azure (trace w) ask) as [e|].
  - exists tt; eexists; exists [(ask, Failed e)].
    split; [exists "Standard_B1s"; split; reflexivity|].
    split; [|reflexivity].
    exists [], ask, [virtual_machines_begin_create_or_update
                        RESOURCE_GROUP_NAME VM_NAME "Standard_B1s"];
      split; [reflexivity|].
    left; exists e; split; [reflexivity | left; reflexivity].
  - destruct (elem "Standard_B1s" (size_names azure (trace w) LOCATION)).
    + apply Hrequest; reflexivity.
    + destruct (size_names azure (trace w) LOCATION) as [|first rest].
      * apply Hnone; reflexivity.
      * destruct (truthy first) eqn:Hfirst;
          [apply Hrequest; [exact Hfirst | reflexivity]
          | apply Hnone; reflexivity].
Qed.

Lemma follows_create_virtual_machine :
  follows (create_virtual_machine azure)
    (fun _ p =>
       exists create size,
         truthy size = true
         /\ p = (group_plan create ++ network_plan ++ machine_plan size)%list).
Proof.
  unfold create_virtual_machine, create_virtual_machine_deploy.
  apply follows_try; [|reraising_clauses].
  eapply follows_weaken.
  - apply follows_bind
      with (first := fun _ p =>
                       exists create size,
                         truthy size = true
                         /\ p = (group_plan create ++ network_plan
                                 ++ [ virtual_machine_sizes_list LOCATION;
                                      virtual_machines_begin_create_or_update
                                        RESOURCE_GROUP_NAME VM_NAME size ])%list)
           (next := fun _ _ p => p = [virtual_machines_get RESOURCE_GROUP_NAME VM_NAME]).
    + eapply follows_weaken.
      * eapply follows_bind; [apply follows_create_resource_group | intros ? |].
        -- apply follows_after; [apply follows_create_virtual_network | intros ? |].
           ++ apply follows_after; [apply follows_create_public_ip | intros ? |].
              ** apply follows_after;
                   [apply follows_create_network_interface | intros ? |].
                 --- apply follows_logging_then, follows_size_then_request.
                 --- exists tt; eexists; exists "Standard_B1s"; split; reflexivity.
              ** exists tt; eexists; eexists; split;
                   [exists "Standard_B1s"; split; reflexivity | reflexivity].
           ++ exists tt; eexists; eexists; split;
                [eexists; split;
                   [exists "Standard_B1s"; split; reflexivity | reflexivity]
                | reflexivity].
        -- intros ? ? _; exists tt; eexists; eexists; split;
             [eexists; split;
                [eexists; split;
                   [exists "Standard_B1s"; split; reflexivity | reflexivity]
                | reflexivity]
             | reflexivity].
      * intros [] p [[] [p1 [p2 [[create ->] [Hrest ->]]]]].
        destruct Hrest as [q1 [[q2 [[q3 [[size [Hsize ->]] ->]] ->]] ->]].
        exists create, size; split; [exact Hsize | reflexivity].
    + intros ?; unfold create_virtual_machine_verify.
      apply follows_verification_loop.
    + intros ? ? _; exists tt; eauto.
  - intros [] p [[] [p1 [p2 [[create [size [Hsize ->]]] [-> ->]]]]].
    exists create, size; split; [exact Hsize|].
    unfold machine_plan; rewrite <- !app_assoc; reflexivity.
Qed.

Lemma follows_setup_sql_database :
  follows (setup_sql_database azure random_index)
    (fun _ p =>
       exists server,
         String.prefix SQL_SERVER_NAME server = true /\ p = database_plan server).
Proof.
  unfold setup_sql_database, setup_sql_database_server.
  apply follows_try; [|reraising_clauses].
  eapply follows_weaken.
  - apply follows_bind
      with (first := fun server p =>
                       String.prefix SQL_SERVER_NAME server = true
                       /\ p = [servers_begin_create_or_update
                                 RESOURCE_GROUP_NAME server])
           (next := fun server _ p =>
                      p = [ servers_get RESOURCE_GROUP_NAME server;
                            databases_begin_create_or_update
                              RESOURCE_GROUP_NAME server SQL_DB_NAME ]).
    + apply follows_logging_then.
      eapply follows_weaken.
      * apply follows_bind
          with (first := fun name p =>
                           String.prefix SQL_SERVER_NAME name = true /\ p = [])
               (next := fun name server p =>
                          server = name
                          /\ p = [servers_begin_create_or_update
                                    RESOURCE_GROUP_NAME name]).
        -- apply follows_generate_unique_name.
        -- intros name; apply follows_logging_then.
           eapply follows_weaken.
           ++ apply follows_bind
                with (first := fun _ p =>
                                 p = [servers_begin_create_or_update
                                        RESOURCE_GROUP_NAME name])
                     (next := fun _ server p => server = name /\ p = []).
              ** apply follows_sdk_call.
              ** intros ?; apply follows_logging_then, follows_ret.
              ** intros ? ? _; exists name; eauto.
           ++ intros server p [[] [p1 [p2 [-> [[-> ->] ->]]]]]; auto.
        -- intros name p _; exists name; eauto.
      * intros server p [name [p1 [p2 [[Hname ->] [[-> ->] ->]]]]]; auto.
    + intros server; unfold setup_sql_database_verify.
      apply (follows_seq _ _ [_] [_]); [apply follows_verification_loop | intros ?].
      apply (follows_seq _ _ [_] []);
        [apply follows_sdk_call | intros; apply follows_log].
    + intros server p _; exists tt; eauto.
  - intros [] p [server [p1 [p2 [[Hname ->] [-> ->]]]]].
    exists server; auto.
Qed.

Lemma follows_configure_storage_account :
  follows (configure_storage_account azure random_index)
    (fun _ p =>
       exists account,
         String.prefix STORAGE_ACCOUNT_NAME account = true
         /\ p = storage_plan account).
Proof.
  unfold configure_storage_account.
  apply follows_try; [|reraising_clauses].
  apply follows_logging_then.
  eapply follows_weaken.
  - apply follows_bind
      with (first := fun name p =>
                       String.prefix STORAGE_ACCOUNT_NAME name = true /\ p = [])
           (next := fun name _ p => p = storage_plan name).
    + apply follows_generate_unique_name.
    + intros name; apply follows_logging_then.
      apply (follows_seq _ _ [_] []);
        [apply follows_sdk_call | intros; apply follows_log].
    + intros name p _; exists tt; eauto.
  - intros [] p [name [p1 [p2 [[Hname ->] [-> ->]]]]].
    exists name; auto.
Qed.

(** The calls of a run of [main] are those of one plan, up to the point
    where it stops. *)
Lemma follows_main :
  follows (main azure random_index)
    (fun _ p =>
       exists create1 create2 size server account,
         truthy size = true
         /\ String.prefix SQL_SERVER_NAME server = true
         /\ String.prefix STORAGE_ACCOUNT_NAME account = true
         /\ p = main_plan create1 create2 size server account).
Proof.
  unfold main.
  eapply follows_weaken.
  - eapply follows_bind; [apply follows_create_resource_group | intros ? |].
    + eapply follows_bind; [apply follows_create_virtual_machine | intros ? |].
      * eapply follows_bind; [apply follows_setup_sql_database | intros ? |].
        -- apply follows_configure_storage_account.
        -- intros ? ? _; exists tt; eexists; exists "mystorageacct";
             split; reflexivity.
      * intros ? ? _; exists tt; eexists; exists tt; eexists; eexists; split;
          [exists "myserver"; split; reflexivity|].
        split; [exists "mystorageacct"; split; reflexivity | reflexivity].
    + intros ? ? _; exists tt; eexists; exists tt; eexists; eexists; split;
        [exists false, "Standard_B1s"; split; reflexivity|].
      split; [|reflexivity].
      exists tt; eexists; eexists; split;
        [exists "myserver"; split; reflexivity|].
      split; [exists "mystorageacct"; split; reflexivity | reflexivity].
  - intros [] p [[] [p1 [p2 [[create1 ->] [Hvm ->]]]]].
    destruct Hvm as [[] [p3 [p4 [[create2 [size [Hsize ->]]] [Hsql ->]]]]].
    destruct Hsql as [[] [p5 [p6 [[server [Hserver ->]] [[account [Haccount ->]] ->]]]]].
    exists create1, create2, size, server, account.
    repeat (split; [assumption|]).
    unfold main_plan; rewrite <- !app_assoc; reflexivity.
Qed.

End Follows_script.


Lemma completed_calls (p : list Call) (ev : Event) :
  In ev (completed p) -> In (fst ev) p /\ snd ev = Completed.
Proof.
  unfold completed; rewrite <- in_rev, in_map_iff.
  intros [c [<- Hc]]; auto.
Qed.


Lemma halted_calls (p : list Call) (e : exn) (seg : list Event) (ev : Event) :
  halted p e seg -> In ev seg -> In (fst ev) p.
Proof.
  intros [before [c [after [-> [[e0 [-> _]]|[older [_ [-> _]]]]]]]] Hin;
    apply in_or_app.
  - destruct Hin as [<-|Hin]; [right; left; reflexivity|].
    left; exact (proj1 (completed_calls _ _ Hin)).
  - left; exact (proj1 (completed_calls _ _ Hin)).
Qed.


Lemma main_plan_has_no_lifecycle_call
    (create1 create2 : bool) (vm_size server account : string)
    (c : Call) (op : Lifecycle) :
  In c (main_plan create1 create2 vm_size server account) ->
  c <> lifecycle_call op.
Proof.
  intros Hin ->.
  destruct create1, create2, op; cbn in Hin;
    repeat (destruct Hin as [Hin|Hin]; [discriminate Hin|]); exact Hin.
Qed.






(** X11: whatever the provider answers and however the run ends, [main]
    never starts, powers off or deletes a virtual machine: it leaves what
    it created in place. *)
Theorem main_never_calls_a_lifecycle_operation
    (azure : Provider) (random_index : nat -> nat) (w : World) :
  exists seg,
    trace (snd (main azure random_index w)) = (seg ++ trace w)%list
    /\ forall ev op, In ev seg -> fst ev <> lifecycle_call op.
Proof.
  pose proof (follows_main azure random_index w) as H.
  destruct (main azure random_index w) as [[[]|e] w']; cbn [snd].
  - destruct H as [plan [[c1 [c2 [size [server [account [_ [_ [_ ->]]]]]]]] ->]].
    eexists; split; [reflexivity|].
    intros ev op Hev; eapply main_plan_has_no_lifecycle_call.
    exact (proj1 (completed_calls _ _ Hev)).
  - destruct H as [_ [plan [seg [[c1 [c2 [size [server [account [_ [_ [_ ->]]]]]]]]
                                   [Hh ->]]]]].
    exists seg; split; [reflexivity|].
    intros ev op Hev; eapply main_plan_has_no_lifecycle_call.
    exact (halted_calls _ _ _ _ Hh Hev).
Qed.

(** ** Lifecycle operations, for every answer *)

(** What a lifecycle operation does with an exception of its call. *)
Lemma lifecycle_swallows_only_not_found_all
    (azure : Provider) (op : Lifecycle) (w : World) (e : exn) :
  raises azure (trace w) (lifecycle_call op) = Some e ->
  (Exn.isinstance e Exn.ResourceNotFoundError = true ->
   lifecycle_run azure op w
   = (Returns tt,
      {| trace := (lifecycle_call op, Failed e) :: trace w;
         log := (ERROR, "VM not found: " ++ Exn.message e)
                :: (INFO, lifecycle_announcement op) :: log w;
         drawn := drawn w |}))
  /\
  (Exn.isinstance e Exn.ResourceNotFoundError = false ->
   lifecycle_run azure op w
   = (Raises e,
      {| trace := (lifecycle_call op, Failed e) :: trace w;
         log := (ERROR, lifecycle_error_prefix op ++ Exn.message e)
                :: (INFO, lifecycle_announcement op) :: log w;
         drawn := drawn w |})).
Proof.
  intros Hraise.
  split; intros Hclass; destruct op;
    unfold lifecycle_run, start_vm, stop_vm, delete_vm, try_except, bind,
      sdk_call, logging;
    cbn [trace log drawn record_event lifecycle_call] in *;
    provider_says Hraise;
    cbn [except]; rewrite Hclass; try rewrite isinstance_Exception;
    reflexivity.
Qed.

(** X13: each of [start_vm], [stop_vm] and [delete_vm] makes exactly one
    call, whatever the provider answers; it returns when that call
    completes or raises [ResourceNotFoundError], and otherwise raises what
    the call raised.  So none of them ever raises
    [ResourceNotFoundError]. *)
Theorem lifecycle_operations_call_once
    (azure : Provider) (op : Lifecycle) (w : World) :
  (exists s,
     trace (snd (lifecycle_run azure op w)) = (lifecycle_call op, s) :: trace w
     /\ fst (lifecycle_run azure op w)
        = match s with
          | Completed => Returns tt
          | Failed e =>
              if Exn.isinstance e Exn.ResourceNotFoundError
              then Returns tt else Raises e
          end)
  /\ forall e, fst (lifecycle_run azure op w) = Raises e ->
               Exn.isinstance e Exn.ResourceNotFoundError = false.
Proof.
  destruct (raises azure (trace w) (lifecycle_call op)) as [e|] eqn:Hcall.
  - pose proof (lifecycle_swallows_only_not_found_all azure op w e Hcall) as [Hnf Hother].
    destruct (Exn.isinstance e Exn.ResourceNotFoundError) eqn:Hclass.
    + rewrite (Hnf eq_refl); split; [|discriminate].
      exists (Failed e); cbn [fst snd trace]; rewrite Hclass; auto.
    + rewrite (Hother eq_refl); split.
      * exists (Failed e); cbn [fst snd trace]; rewrite Hclass; auto.
      * intros e' [= <-]; exact Hclass.
  - assert (Hrun : exists w',
               lifecycle_run azure op w = (Returns tt, w')
               /\ trace w' = (lifecycle_call op, Completed) :: trace w).
    { destruct op;
        unfold lifecycle_run, start_vm, stop_vm, delete_vm, try_except, bind,
          sdk_call, logging;
        cbn [trace log drawn record_event lifecycle_call] in *;
        provider_says Hcall; eexists; split; reflexivity. }
    destruct Hrun as [w' [-> Ht]]; split; [|discriminate].
    exists Completed; auto.
Qed.

(** ** A listed size without a name *)

(** X14: [create_virtual_machine] treats an empty size name like no size at
    all: when the preferred size is not listed and the first listed size
    has the empty name, it raises the no-sizes exception although sizes
    were listed, and makes no VM request. *)
Theorem empty_size_name_counts_as_no_size
    (azure : Provider) (w w1 : World) (others : list string) :
  (create_resource_group azure ;; create_virtual_network azure ;;
   create_public_ip azure ;; create_network_interface azure) w
  = (Returns tt, w1) ->
  raises azure (trace w1) (virtual_machine_sizes_list LOCATION) = None ->
  size_names azure (trace w1) LOCATION = "" :: others ->
  ~ In "Standard_B1s" others ->
  exists w',
    create_virtual_machine azure w = (Raises no_available_vm_sizes, w')
    /\ trace w' = (virtual_machine_sizes_list LOCATION, Completed) :: trace w1.
Proof.
  intros Hnetwork Hlist Hnames Hout.
  assert (Helem : elem "Standard_B1s" ("" :: others) = false).
  { destruct (elem "Standard_B1s" ("" :: others)) eqn:E; [|reflexivity].
    apply elem_In in E; destruct E as [E|E]; [discriminate E | contradiction]. }
  unfold bind in Hnetwork.
  destruct (create_resource_group azure w) as [[[]|e1] wa] eqn:E1;
    [|discriminate].
  destruct (create_virtual_network azure wa) as [[[]|e2] wb] eqn:E2;
    [|discriminate].
  destruct (create_public_ip azure wb) as [[[]|e3] wc] eqn:E3;
    [|discriminate].
  unfold create_virtual_machine, create_virtual_machine_deploy,
    try_except, bind.
  rewrite E1, E2, E3, Hnetwork.
  unfold get_available_vm_size, bind, logging, list_size_names, ret.
  cbn [trace log drawn record_event].
  provider_says Hlist. provider_says Hnames.
  rewrite Helem.
  change (truthy "") with false; cbn [except raise].
  rewrite isinstance_Exception.
  eexists; split; reflexivity.
Qed.

Lemma empty_size_name_counts_as_no_size_witness :
  fst (create_virtual_machine (cloud [""; "Standard_D2a_v4"]) fresh)
  = Raises no_available_vm_sizes.
Proof.
  edestruct (empty_size_name_counts_as_no_size
               (cloud [""; "Standard_D2a_v4"]) fresh) as [w' [Hrun _]];
    [vm_compute; reflexivity | vm_compute; reflexivity
     | vm_compute; reflexivity | |].
  - cbn; intros [H|[]]; discriminate H.
  - rewrite Hrun; reflexivity.
Defined.
